(** * CommonCrawl News bulk downloader: a shallow embedding

    The development follows [Project_Scripts/01_download_newscrawl.py].
    The script is a straight-line program around two functions,
    [download_with_retries] and [download_warc_file]; everything it does
    is an effect on the outside world (HTTP requests, the local file
    system, the log, [time.sleep], the exit status).  The embedding
    therefore threads an explicit [world] through a small state and
    exception monad, and records every observable action in a trace. *)

From Stdlib Require Import ZArith String Ascii List Bool Lia.
From stdpp Require Import base option gmap strings list.

Local Open Scope string_scope.
Local Open Scope Z_scope.

(** ** Python values *)

(** A Python [str] (and a [bytes] payload) is a [string]: one [ascii] per
    element, so [String.length] is Python's [len]. *)
Abbreviation bytes := string (only parsing).

(** Truthiness of a [str]: only the empty string is false. *)
Definition str_truthy (s : string) : bool :=
  match s with EmptyString => false | String _ _ => true end.

(** Truthiness of an optional [int] ([None] and [0] are false). *)
Definition int_truthy (o : option Z) : bool :=
  match o with None => false | Some k => negb (k =? 0) end.

(** Truthiness of an optional [str] ([None] and [''] are false). *)
Definition optstr_truthy (o : option string) : bool :=
  match o with None => false | Some s => str_truthy s end.

(** [s.replace(old, new)] for one-character [old] and [new]. *)
Fixpoint replace_char (old new : ascii) (s : string) : string :=
  match s with
  | EmptyString => EmptyString
  | String c r =>
      String (if Ascii.eqb c old then new else c) (replace_char old new r)
  end.

(** Whitespace as [str.strip] sees it, for code points below 256. *)
Definition is_space (c : ascii) : bool :=
  let n := nat_of_ascii c in
  ((9 <=? n) && (n <=? 13) || (28 <=? n) && (n <=? 32)
   || (n =? 133) || (n =? 160))%nat.

Fixpoint lstrip (s : string) : string :=
  match s with
  | EmptyString => EmptyString
  | String c r => if is_space c then lstrip r else s
  end.

Fixpoint rstrip (s : string) : string :=
  match s with
  | EmptyString => EmptyString
  | String c r =>
      match rstrip r with
      | EmptyString => if is_space c then EmptyString else String c EmptyString
      | r' => String c r'
      end
  end.

(** [s.strip()] *)
Definition strip (s : string) : string := rstrip (lstrip s).

(** [l[:k]] on a list, for any integer [k] (a negative [k] counts from
    the end). *)
Definition slice_to {A} (k : Z) (l : list A) : list A :=
  if k <? 0 then firstn (Z.to_nat (Z.of_nat (length l) + k)) l
  else firstn (Z.to_nat k) l.

(** ** [os.path] *)

(** [os.path.join] and [os.path.basename] depend on the platform
    ([ntpath] or [posixpath]); the program is parametric in them. *)
Class OsPath := {
  path_join : string -> string -> string;
  basename : string -> string
}.

Fixpoint basename_from (acc p : string) : string :=
  match p with
  | EmptyString => acc
  | String c r =>
      if Ascii.eqb c "/" then basename_from EmptyString r
      else basename_from (acc ++ String c EmptyString) r
  end.

Fixpoint ends_with_slash (s : string) : bool :=
  match s with
  | EmptyString => false
  | String c EmptyString => Ascii.eqb c "/"
  | String _ r => ends_with_slash r
  end.

Definition posix_join (a b : string) : string :=
  match b with
  | String "/" _ => b
  | _ => if negb (str_truthy a) || ends_with_slash a then a ++ b
         else a ++ "/" ++ b
  end.

#[export] Instance posixpath : OsPath :=
  {| path_join := posix_join; basename := basename_from EmptyString |}.

(** ** Exceptions, HTTP and the outside world *)

(** The subclasses of [requests.exceptions.RequestException] that the
    [requests] calls of the script can raise. *)
Inductive request_exception :=
| ConnectionError
| ReadTimeout
| HTTPError
| ChunkedEncodingError.

(** Exceptions of the program.  [OSError] comes from the file system
    ([open], [write], closing a file, [os.remove]); [BadGzipFile] (with
    [EOFError] and decoding errors) from reading the manifest;
    [IndexError] from indexing a [str]; [ValueError], [OverflowError]
    and, for a wait too long for the platform, [OSError] from
    [time.sleep]. *)
Inductive exn :=
| RequestException (e : request_exception)
| OSError
| BadGzipFile
| IndexError
| ValueError
| OverflowError.

(** What [requests.get(url, stream=True)] hands back: a status code and
    the chunks that [iter_content] yields, after which the iterator
    either stops or raises. *)
Record response := {
  status_code : Z;
  chunks : list bytes;
  broken : option request_exception
}.

Inductive get_result :=
| GetRaises (e : request_exception)
| GetResponse (r : response).

(** How [time.sleep] refuses a wait that is too long for the platform:
    with [OverflowError] or with [OSError]. *)
Inductive refusal := TooLong | InvalidArgument.

(** The part of the world the program cannot change:
    - the remote endpoints: [net url n] answers the request for [url]
      issued after [n] earlier requests;
    - the directories: [is_dir p] tells whether the path [p] names a
      directory once the download folder has been made (line 61); the
      script makes and removes no directory after that;
    - which paths [open(_, 'wb')] accepts, when they do not name a
      directory, and which files [os.remove] can remove;
    - the disk: [write_error p n i] is [Some landed] when, with [n]
      requests issued so far, the [i]-th write to the open file [p] (or,
      for [i] the number of chunks, closing it) raises [OSError];
      [landed] is what the file holds after that;
    - what [gzip] makes of a payload (its text lines, or [None] when
      decompression or decoding raises);
    - the clock: [long_sleep s] tells whether and how [time.sleep]
      refuses a wait of [s] seconds, for the long waits that not every
      platform takes;
    - the pool: [overrun] is the number of calls after a failed one that
      the workers have taken up when the failure is read from the
      results. *)
Record environment := {
  net : string -> nat -> get_result;
  is_dir : string -> bool;
  can_open : string -> bool;
  can_remove : string -> bool;
  write_error : string -> nat -> nat -> option bytes;
  gunzip_lines : bytes -> option (list string);
  long_sleep : Z -> option refusal;
  overrun : nat
}.

Inductive level := INFO | WARNING | ERROR.

(** The log lines of the script, by format string. *)
Inductive message :=
| MsgInvalidYearMonth
| MsgAttempting (url : string)
| MsgDownloaded (local_path : string)
| MsgRetrying (url : string) (wait_time : Z)
| MsgFailedAfter (url : string) (retries : Z)
| MsgManifestFailed
| MsgExtracting (local_path : string)
| MsgLimited (max_files : Z)
| MsgSkipping (local_filename : string)
| MsgStarting (n : nat)
| MsgCleaningUp
| MsgAllDone.

Inductive event :=
| EvLog (lvl : level) (msg : message)
| EvGet (url : string)
| EvSleep (seconds : Z)
| EvMakedirs (folder : string).

(** The mutable world: the regular files below the download folder, by
    path, and the trace of observable actions, oldest first. *)
Record world := {
  fs : gmap string bytes;
  trace : list event
}.

Definition add_events (evs : list event) (w : world) : world :=
  {| fs := fs w; trace := trace w ++ evs |}.

Definition set_fs (f : gmap string bytes) (w : world) : world :=
  {| fs := f; trace := trace w |}.

Fixpoint get_count (t : list event) : nat :=
  match t with
  | [] => O
  | EvGet _ :: t' => S (get_count t')
  | _ :: t' => get_count t'
  end.

Fixpoint slept (t : list event) : Z :=
  match t with
  | [] => 0
  | EvSleep s :: t' => s + slept t'
  | _ :: t' => slept t'
  end.

(** ** The monad *)

Inductive outcome (A : Type) :=
| Ret (a : A)
| Raise (e : exn)
| Exit (code : Z).
Arguments Ret {A} a.
Arguments Raise {A} e.
Arguments Exit {A} code.

Definition M (A : Type) : Type := world -> outcome A * world.

Definition ret {A} (a : A) : M A := fun w => (Ret a, w).

Definition bind {A B} (m : M A) (k : A -> M B) : M B :=
  fun w =>
    match m w with
    | (Ret a, w') => k a w'
    | (Raise e, w') => (Raise e, w')
    | (Exit c, w') => (Exit c, w')
    end.

Definition raise {A} (e : exn) : M A := fun w => (Raise e, w).

(** [exit(code)] *)
Definition exit_ {A} (code : Z) : M A := fun w => (Exit code, w).

(** [try: m  except requests.exceptions.RequestException as e: h e] *)
Definition try_except_request {A} (m : M A) (h : request_exception -> M A)
  : M A :=
  fun w =>
    match m w with
    | (Raise (RequestException e), w') => h e w'
    | r => r
    end.

Declare Scope py_scope.
Delimit Scope py_scope with py.
Notation "x <- m ;; k" := (bind m (fun x => k))
  (at level 100, m at level 99, k at level 200, right associativity)
  : py_scope.
Notation "m ;; k" := (bind m (fun _ => k))
  (at level 100, k at level 200, right associativity) : py_scope.
Local Open Scope py_scope.

(** The exit status of the process: an uncaught exception ends the
    interpreter with status 1. *)
Definition exit_status {A} (o : outcome A) : Z :=
  match o with Ret _ => 0 | Exit c => c | Raise _ => 1 end.

Definition emit (e : event) : M unit := fun w => (Ret tt, add_events [e] w).
Definition log (lvl : level) (msg : message) : M unit := emit (EvLog lvl msg).

(** [time.sleep(seconds)] for an [int].  A number of seconds that does
    not fit the interpreter's 64-bit count of nanoseconds raises
    [OverflowError], a negative one [ValueError].  A wait of up to
    [SLEEP_SURE] seconds (the 32-bit count of milliseconds of the older
    interpreters on Windows) is taken on every platform; whether a
    longer one is taken depends on the interpreter and on the clock of
    the system, which refuse with [OverflowError] or with [OSError]. *)
Definition SLEEP_MAX : Z := 9223372036.
Definition SLEEP_SURE : Z := 4294967.

Definition refusal_exn (r : refusal) : exn :=
  match r with TooLong => OverflowError | InvalidArgument => OSError end.

Definition sleep (env : environment) (seconds : Z) : M unit :=
  if (seconds <? - SLEEP_MAX) || (SLEEP_MAX <? seconds)
  then raise OverflowError
  else if seconds <? 0 then raise ValueError
  else if seconds <=? SLEEP_SURE then emit (EvSleep seconds)
  else match long_sleep env seconds with
       | Some r => raise (refusal_exn r)
       | None => emit (EvSleep seconds)
       end.

(** [os.makedirs(folder, exist_ok=True)], taken to succeed. *)
Definition makedirs (folder : string) : M unit := emit (EvMakedirs folder).

(** The file system after [fd.write(chunk)]. *)
Definition fs_write (local_path : string) (f : gmap string bytes)
    (chunk : bytes) : gmap string bytes :=
  <[local_path := default EmptyString (f !! local_path) ++ chunk]> f.

(** Whether [open(p, 'wb')] succeeds: never for a directory. *)
Definition opens (env : environment) (p : string) : bool :=
  negb (is_dir env p) && can_open env p.

Section Program.
Context (env : environment) `{OsPath}.

(** [os.path.exists]: true for a regular file and for a directory. *)
Definition path_exists (p : string) : M bool :=
  fun w => (Ret (bool_decide (is_Some (fs w !! p)) || is_dir env p), w).

(** [os.remove]: removes a regular file; raises for a directory, for a
    file that the system does not let go, and for a path that does not
    exist. *)
Definition remove (p : string) : M unit :=
  fun w =>
    if is_dir env p || negb (can_remove env p) then (Raise OSError, w)
    else match fs w !! p with
         | Some _ => (Ret tt, set_fs (delete p (fs w)) w)
         | None => (Raise OSError, w)
         end.

(** [requests.get(url, stream=True)] *)
Definition requests_get (url : string) : M response :=
  fun w =>
    let w' := add_events [EvGet url] w in
    match net env url (get_count (trace w)) with
    | GetRaises e => (Raise (RequestException e), w')
    | GetResponse r => (Ret r, w')
    end.

(** [response.raise_for_status()]: [HTTPError] for 4xx and 5xx. *)
Definition is_error_status (code : Z) : bool :=
  (400 <=? code) && (code <? 600).

Definition raise_for_status (r : response) : M unit :=
  if is_error_status (status_code r) then raise (RequestException HTTPError)
  else ret tt.

(** [open(local_path, 'wb')]: creates or truncates the file. *)
Definition open_wb (local_path : string) : M unit :=
  fun w =>
    if opens env local_path
    then (Ret tt, set_fs (<[local_path := EmptyString]> (fs w)) w)
    else (Raise OSError, w).

(** [fd.write(chunk)], the [i]-th write of the attempt. *)
Definition fd_write (local_path : string) (i : nat) (chunk : bytes) : M unit :=
  fun w =>
    match write_error env local_path (get_count (trace w)) i with
    | Some landed =>
        (Raise OSError, set_fs (<[local_path := landed]> (fs w)) w)
    | None => (Ret tt, set_fs (fs_write local_path (fs w) chunk) w)
    end.

(** Leaving the [with open(...)] block closes the file, which writes out
    what is still buffered. *)
Definition fd_close (local_path : string) (i : nat) : M unit :=
  fun w =>
    match write_error env local_path (get_count (trace w)) i with
    | Some landed =>
        (Raise OSError, set_fs (<[local_path := landed]> (fs w)) w)
    | None => (Ret tt, w)
    end.

(** [for chunk in response.iter_content(chunk_size=8192): fd.write(chunk)] *)
Fixpoint write_chunks (local_path : string) (i : nat) (cs : list bytes)
  : M unit :=
  match cs with
  | [] => ret tt
  | c :: cs' => fd_write local_path i c ;; write_chunks local_path (S i) cs'
  end.

(** Lines 72-74.  The file is closed whichever way the loop ends; an
    error of the iterator leaves the block only when closing does not
    raise itself. *)
Definition stream_to_file (local_path : string) (r : response) : M unit :=
  write_chunks local_path 0 (chunks r) ;;
  fd_close local_path (length (chunks r)) ;;
  match broken r with
  | Some e => raise (RequestException e)
  | None => ret tt
  end.

(** The body of the [try] in [download_with_retries] (lines 69-76). *)
Definition attempt (url local_path : string) : M bool :=
  log INFO (MsgAttempting url) ;;
  r <- requests_get url ;;
  raise_for_status r ;;
  open_wb local_path ;;
  stream_to_file local_path r ;;
  log INFO (MsgDownloaded local_path) ;;
  ret true.

(** The [for attempt in range(retries)] loop with what follows it;
    [n] iterations are left. *)
Fixpoint retry_loop (url local_path : string) (retries : Z) (n : nat)
    (wait_time : Z) : M bool :=
  match n with
  | O => log ERROR (MsgFailedAfter url retries) ;; ret false
  | S n' =>
      try_except_request (attempt url local_path)
        (fun _ =>
           log WARNING (MsgRetrying url wait_time) ;;
           sleep env wait_time ;;
           retry_loop url local_path retries n' (wait_time * 2))
  end.

Definition download_with_retries (url local_path : string)
    (retries backoff : Z) : M bool :=
  retry_loop url local_path retries (Z.to_nat retries) backoff.

Definition default_retries : Z := 5.
Definition default_backoff : Z := 10.

(** *** The script, top to bottom *)

Definition BASE_URL : string := "https://data.commoncrawl.org/crawl-data/CC-NEWS/".
Definition DOWNLOAD_URL : string := "https://data.commoncrawl.org/".
Definition DEFAULT_ROOT : string := "D:\CommonCrawl\news".

(** The value of [parser.parse_args()]. *)
Record arguments := {
  year_month : string;
  max_files : option Z;
  download_folder : option string
}.

(** [YEAR_MONTH[4]]: indexing outside the string raises. *)
Definition str_index (s : string) (i : nat) : outcome ascii :=
  match String.get i s with
  | Some c => Ret c
  | None => Raise IndexError
  end.

(** The condition of line 50,
    [not YEAR_MONTH or len(YEAR_MONTH) != 7 or YEAR_MONTH[4] != '/'],
    with Python's left-to-right short-circuit evaluation. *)
Definition year_month_rejected (s : string) : outcome bool :=
  if negb (str_truthy s) then Ret true
  else if negb (Nat.eqb (String.length s) 7) then Ret true
  else match str_index s 4 with
       | Ret c => Ret (negb (Ascii.eqb c "/"))
       | Raise e => Raise e
       | Exit c => Exit c
       end.

Definition lift {A} (o : outcome A) : M A := fun w => (o, w).

Definition WARC_PATHS_FILE (a : arguments) : string :=
  year_month a ++ "/warc.paths.gz".

Definition DOWNLOAD_FOLDER (a : arguments) : string :=
  if optstr_truthy (download_folder a)
  then default EmptyString (download_folder a)
  else path_join DEFAULT_ROOT (replace_char "/" "-" (year_month a)).

Definition warc_paths_local (a : arguments) : string :=
  path_join (DOWNLOAD_FOLDER a) (basename (WARC_PATHS_FILE a)).

(** [with gzip.open(path, 'rt') as f: ... for line in f] *)
Definition gzip_read_lines (p : string) : M (list string) :=
  fun w =>
    match fs w !! p with
    | None => (Raise OSError, w)
    | Some data =>
        match gunzip_lines env data with
        | Some ls => (Ret ls, w)
        | None => (Raise BadGzipFile, w)
        end
    end.

(** Lines 96-98. *)
Definition limit_paths (a : arguments) (file_paths : list string)
  : M (list string) :=
  if int_truthy (max_files a) then
    let k := default 0 (max_files a) in
    log INFO (MsgLimited k) ;;
    ret (slice_to k file_paths)
  else ret file_paths.

(** [download_warc_file(path)] (lines 101-108); it returns [None] on
    every path through it. *)
Definition local_filename (folder path : string) : string :=
  path_join folder (basename path).

Definition download_warc_file (folder path : string) : M unit :=
  let url := DOWNLOAD_URL ++ path in
  let local := local_filename folder path in
  ex <- path_exists local ;;
  if ex then log INFO (MsgSkipping local) ;; ret tt
  else
    _ <- download_with_retries url local default_retries default_backoff ;;
    ret tt.

(** [list(executor.map(f, paths))] inside the [with ThreadPoolExecutor]
    block.  The calls are taken up in the order of submission, and the
    results are read in that order.  Reading the result of a call that
    raised re-raises its exception and cancels the calls that no worker
    has taken up yet; those already taken up, [overrun] of them, run to
    their end, and what they return or raise is never read.  The calls
    are taken here one after the other: the schedule in which they do
    not overlap.  On the ten workers they do overlap; calls with
    different destinations share nothing but the log, while two calls
    with the same destination race for it (both may find it missing).
    What is stated of a batch below is therefore either independent of
    the schedule or restricted to entries whose destinations are
    pairwise different. *)
Fixpoint run_unread {A} (f : string -> M A) (paths : list string) : M unit :=
  match paths with
  | [] => ret tt
  | p :: ps => fun w => run_unread f ps (f p w).2
  end.

Definition prepend {A} (a : A) (rs : outcome (list A)) : outcome (list A) :=
  match rs with
  | Ret l => Ret (a :: l)
  | Raise e => Raise e
  | Exit c => Exit c
  end.

Fixpoint executor_map {A} (f : string -> M A) (paths : list string)
  : M (list A) :=
  match paths with
  | [] => ret []
  | p :: ps =>
      fun w =>
        match f p w with
        | (Ret a, w1) =>
            let '(rs, w2) := executor_map f ps w1 in (prepend a rs, w2)
        | (Raise e, w1) =>
            (Raise e, (run_unread f (firstn (overrun env) ps) w1).2)
        | (Exit c, w1) =>
            (Exit c, (run_unread f (firstn (overrun env) ps) w1).2)
        end
  end.

(** Lines 110-113. *)
Definition fetch_batch (folder : string) (file_paths : list string)
  : M (list unit) :=
  log INFO (MsgStarting (length file_paths)) ;;
  executor_map (download_warc_file folder) file_paths.

(** Lines 85-94: the manifest. *)
Definition fetch_manifest (a : arguments) : M (list string) :=
  let local := warc_paths_local a in
  ex <- path_exists local ;;
  (if negb ex then
     ok <- download_with_retries (BASE_URL ++ WARC_PATHS_FILE a) local
             default_retries default_backoff ;;
     if negb ok then log ERROR MsgManifestFailed ;; exit_ 1 else ret tt
   else ret tt) ;;
  log INFO (MsgExtracting local) ;;
  lines <- gzip_read_lines local ;;
  ret (map strip lines).

(** Lines 116-120. *)
Definition cleanup (a : arguments) : M unit :=
  log INFO MsgCleaningUp ;;
  ex <- path_exists (warc_paths_local a) ;;
  (if ex then remove (warc_paths_local a) else ret tt) ;;
  log INFO MsgAllDone.

(** Lines 54-113: from the download folder to the end of the batch. *)
Definition download_all (a : arguments) : M (list unit) :=
  makedirs (DOWNLOAD_FOLDER a) ;;
  file_paths <- fetch_manifest a ;;
  file_paths <- limit_paths a file_paths ;;
  fetch_batch (DOWNLOAD_FOLDER a) file_paths.

(** Everything after the validation of [YEAR_MONTH] (lines 54-120). *)
Definition run (a : arguments) : M unit :=
  _ <- download_all a ;;
  cleanup a.

(** The whole script. *)
Definition main (a : arguments) : M unit :=
  bad <- lift (year_month_rejected (year_month a)) ;;
  if bad then log ERROR MsgInvalidYearMonth ;; exit_ 1
  else run a.

End Program.

(** ** The operations as the specification words them *)

(** The specification gives [fetch_one] a result, [success], [skipped] or
    [failed], and lets [fetch_batch] return a report with the three
    counts.  The definitions below follow those words, on top of the
    same steps as [download_warc_file], to be compared with the code. *)
Inductive fetch_status := Skipped | Succeeded | Failed.


Definition is_status (s t : fetch_status) : bool :=
  match s, t with
  | Skipped, Skipped | Succeeded, Succeeded | Failed, Failed => true
  | _, _ => false
  end.


Section Specification.
Context (env : environment) `{OsPath}.

Definition spec_fetch_one (folder path : string) : M fetch_status :=
  let url := DOWNLOAD_URL ++ path in
  let local := local_filename folder path in
  ex <- path_exists env local ;;
  if ex then log INFO (MsgSkipping local) ;; ret Skipped
  else
    ok <- download_with_retries env url local default_retries default_backoff ;;
    ret (if ok then Succeeded else Failed).


(** "Exact length 7 and a literal [/] at index 4". *)
Definition well_formed_period (s : string) : bool :=
  Nat.eqb (String.length s) 7
  && match String.get 4 s with
     | Some c => Ascii.eqb c "/"
     | None => false
     end.

End Specification.

(** ** The retry ceiling and the backoff series *)

(** The waits of [n] failed attempts in a row, the first one [wait]. *)
Fixpoint backoff_series (wait : Z) (n : nat) : list Z :=
  match n with
  | O => []
  | S n' => wait :: backoff_series (wait * 2) n'
  end.

(** [a + a*r + ... + a*r^(n-1)] *)
Fixpoint geometric_sum (a r : Z) (n : nat) : Z :=
  match n with
  | O => 0
  | S n' => a + geometric_sum (a * r) r n'
  end.

(** The waits recorded in a trace, oldest first. *)
Fixpoint sleeps (t : list event) : list Z :=
  match t with
  | [] => []
  | EvSleep s :: t' => s :: sleeps t'
  | _ :: t' => sleeps t'
  end.

(** What [n] failed attempts in a row leave in the trace. *)
Fixpoint failed_attempts (url : string) (n : nat) (wait : Z) : list event :=
  match n with
  | O => []
  | S n' =>
      EvLog INFO (MsgAttempting url) :: EvGet url
        :: EvLog WARNING (MsgRetrying url wait) :: EvSleep wait
        :: failed_attempts url n' (wait * 2)
  end.

(** An attempt ends in a network error when [requests.get] raises, when
    the status is an error status, or when the body breaks off while it
    is streamed into the destination file, which [open] has accepted by
    then.  The first two happen before the destination file is opened. *)
Definition fails_before_body (g : get_result) : bool :=
  match g with
  | GetRaises _ => true
  | GetResponse r => is_error_status (status_code r)
  end.

Definition ends_in_network_error (openable : bool) (g : get_result) : bool :=
  match g with
  | GetRaises _ => true
  | GetResponse r =>
      is_error_status (status_code r)
      || openable && match broken r with Some _ => true | None => false end
  end.

(** The waits that [time.sleep] takes. *)
Definition sleep_accepts (env : environment) (seconds : Z) : bool :=
  (0 <=? seconds)
  && ((seconds <=? SLEEP_SURE)
      || (seconds <=? SLEEP_MAX)
         && match long_sleep env seconds with None => true | Some _ => false end).

Definition waits_accepted (env : environment) (wait : Z) (n : nat) : bool :=
  forallb (sleep_accepts env) (backoff_series wait n).

(** The disk takes whatever is written to [p]. *)
Definition disk_accepts (env : environment) (p : string) : Prop :=
  forall n i, write_error env p n i = None.

(** The destination [p] can be written: [open] accepts it and the disk
    takes whatever is written to it. *)
Definition writable (env : environment) (p : string) : Prop :=
  can_open env p = true /\ disk_accepts env p.

(** The file [p] can be removed: it is no directory, and the system lets
    it go. *)
Definition removable (env : environment) (p : string) : Prop :=
  is_dir env p = false /\ can_remove env p = true.

(** What [os.path.exists] answers in a world. *)
Definition present (env : environment) (w : world) (p : string) : bool :=
  bool_decide (is_Some (fs w !! p)) || is_dir env p.

(** What the disk makes of the writes of one attempt, made with [n]
    requests issued: whether every write and the closing went through,
    and the files after them. *)
Fixpoint disk_writes (env : environment) (p : string) (n i : nat)
    (cs : list bytes) (f : gmap string bytes) : bool * gmap string bytes :=
  match cs with
  | [] =>
      match write_error env p n i with
      | Some landed => (false, <[p := landed]> f)
      | None => (true, f)
      end
  | c :: cs' =>
      match write_error env p n i with
      | Some landed => (false, <[p := landed]> f)
      | None => disk_writes env p n (S i) cs' (fs_write p f c)
      end
  end.

Definition disk_store (env : environment) (p : string) (n : nat)
    (r : response) (f : gmap string bytes) : bool * gmap string bytes :=
  disk_writes env p n 0 (chunks r) (<[p := EmptyString]> f).

(** ** Reading traces *)

(** Whether a trace holds a request for [url]. *)
Definition requested (url : string) (t : list event) : bool :=
  existsb (fun e => match e with EvGet u => String.eqb u url | _ => false end) t.

(** Whether a trace holds the line that [local] is skipped. *)
Definition skipped_line (local : string) (t : list event) : bool :=
  existsb (fun e => match e with
                    | EvLog _ (MsgSkipping l) => String.eqb l local
                    | _ => false
                    end) t.

(** [grows P m]: whatever the world, running [m] only appends events to
    the trace, and each of them satisfies [P]. *)
Definition grows {A} (P : event -> Prop) (m : M A) : Prop :=
  forall w, exists evs,
    trace (m w).2 = (trace w ++ evs)%list /\ Forall P evs.

Definition any_event : event -> Prop := fun _ => True.

(** Every request of the event, if it is one, goes to a URL in [U]. *)
Definition gets_within (U : string -> Prop) (e : event) : Prop :=
  forall url, e = EvGet url -> U url.

Definition is_skipping_line (e : event) : bool :=
  match e with EvLog _ (MsgSkipping _) => true | _ => false end.
Definition is_downloaded_line (e : event) : bool :=
  match e with EvLog _ (MsgDownloaded _) => true | _ => false end.
Definition is_failed_line (e : event) : bool :=
  match e with EvLog _ (MsgFailedAfter _ _) => true | _ => false end.

Definition count_lines (p : event -> bool) (t : list event) : nat :=
  length (List.filter p t).

(** The log lines that tell the three outcomes apart. *)
Definition lines_of (s : fetch_status) (evs : list event) : Prop :=
  count_lines is_skipping_line evs = (if is_status Skipped s then 1 else 0)%nat
  /\ count_lines is_downloaded_line evs
     = (if is_status Succeeded s then 1 else 0)%nat
  /\ count_lines is_failed_line evs = (if is_status Failed s then 1 else 0)%nat.

(** ** Concrete worlds *)

Module Scenario.

Definition empty_world : world := {| fs := ∅; trace := [] |}.

(** A later invocation of the program: the files are those a run left
    behind, the trace starts afresh. *)
Definition later (w : world) : world := {| fs := fs w; trace := [] |}.

Definition ok_response (body : bytes) : response :=
  {| status_code := 200; chunks := [body]; broken := None |}.

Definition manifest_url : string := BASE_URL ++ "2023/09/warc.paths.gz".
Definition url1 : string := DOWNLOAD_URL ++ "a/1.warc.gz".
Definition url2 : string := DOWNLOAD_URL ++ "a/2.warc.gz".

Definition two_lines (data : bytes) : option (list string) :=
  if String.eqb data "GZ"
  then Some [String.append "a/1.warc.gz" (String "010" EmptyString);
             String.append "a/2.warc.gz" (String "010" EmptyString)]
  else None.

(** The download folder is the only directory. *)
Definition data_folder (p : string) : bool :=
  String.eqb p "data" || String.eqb p "data/".

(** Every connection is refused. *)
Definition unreachable : environment :=
  {| net := fun _ _ => GetRaises ConnectionError;
     is_dir := data_folder;
     can_open := fun _ => true;
     can_remove := fun _ => true;
     write_error := fun _ _ _ => None;
     long_sleep := fun _ => None;
     overrun := 9;
     gunzip_lines := fun _ => None |}.

(** Every response is a 200 whose body breaks off after three bytes. *)
Definition truncating : environment :=
  {| net := fun _ _ =>
       GetResponse {| status_code := 200; chunks := ["abc"];
                      broken := Some ConnectionError |};
     is_dir := data_folder;
     can_open := fun _ => true;
     can_remove := fun _ => true;
     write_error := fun _ _ _ => None;
     long_sleep := fun _ => None;
     overrun := 9;
     gunzip_lines := fun _ => None |}.

(** Every response is a complete 200. *)
Definition serving : environment :=
  {| net := fun _ _ => GetResponse (ok_response "body");
     is_dir := data_folder;
     can_open := fun _ => true;
     can_remove := fun _ => true;
     write_error := fun _ _ _ => None;
     long_sleep := fun _ => None;
     overrun := 9;
     gunzip_lines := fun _ => None |}.


(** The manifest of two entries and the first object are served; the
    second object answers 503 every time. *)
Definition second_fails : environment :=
  {| net := fun url _ =>
       if String.eqb url manifest_url then GetResponse (ok_response "GZ")
       else if String.eqb url url1 then GetResponse (ok_response "one")
       else GetResponse {| status_code := 503; chunks := []; broken := None |};
     is_dir := data_folder;
     can_open := fun _ => true;
     can_remove := fun _ => true;
     write_error := fun _ _ _ => None;
     long_sleep := fun _ => None;
     overrun := 9;
     gunzip_lines := two_lines |}.

(** As [second_fails], but the second object is served and its
    destination cannot be opened (a name the file system refuses). *)
Definition second_unwritable : environment :=
  {| net := fun url _ =>
       if String.eqb url manifest_url then GetResponse (ok_response "GZ")
       else GetResponse (ok_response "body");
     is_dir := data_folder;
     can_open := fun p => negb (String.eqb p "data/2.warc.gz");
     can_remove := fun _ => true;
     write_error := fun _ _ _ => None;
     long_sleep := fun _ => None;
     overrun := 9;
     gunzip_lines := two_lines |}.

(** The manifest is served, but it is not a gzip file. *)
Definition garbled_manifest : environment :=
  {| net := fun _ _ => GetResponse (ok_response "<html>");
     is_dir := data_folder;
     can_open := fun _ => true;
     can_remove := fun _ => true;
     write_error := fun _ _ _ => None;
     long_sleep := fun _ => None;
     overrun := 9;
     gunzip_lines := two_lines |}.

(** The download folder after an earlier run that fetched the first
    object. *)
Definition have_first : world :=
  {| fs := {[ "data/1.warc.gz" := "one" ]}; trace := [] |}.

Definition args (k : option Z) : arguments :=
  {| year_month := "2023/09"; max_files := k; download_folder := Some "data" |}.

End Scenario.

(** ** Payloads and further worlds *)

(** The payload that the chunks of a response add up to. *)
Fixpoint join_chunks (cs : list bytes) : bytes :=
  match cs with
  | [] => EmptyString
  | c :: cs' => c ++ join_chunks cs'
  end.

(** A response that passes [raise_for_status] and whose body arrives to
    its end. *)
Definition complete (r : response) : bool :=
  negb (is_error_status (status_code r))
  && match broken r with None => true | Some _ => false end.

(** A response that passes [raise_for_status] and whose body breaks off. *)
Definition breaks_off (r : response) : bool :=
  negb (is_error_status (status_code r))
  && match broken r with None => false | Some _ => true end.

(** [l1] is an initial segment of [l2]. *)
Definition initial_segment {A} (l1 l2 : list A) : Prop :=
  l1 = firstn (length l1) l2.

Module Replay.

(** The first request gets three bytes before the body breaks off, the
    second is answered 503, from the third on the object is served. *)
Definition recovering : environment :=
  {| net := fun _ n =>
       match n with
       | O => GetResponse {| status_code := 200; chunks := ["abc"];
                             broken := Some ConnectionError |}
       | S O => GetResponse {| status_code := 503; chunks := [];
                               broken := None |}
       | _ => GetResponse {| status_code := 200; chunks := ["bo"; "dy"];
                             broken := None |}
       end;
     is_dir := Scenario.data_folder;
     can_open := fun _ => true;
     can_remove := fun _ => true;
     write_error := fun _ _ _ => None;
     long_sleep := fun _ => None;
     overrun := 9;
     gunzip_lines := Scenario.two_lines |}.

(** Connections are refused, except that the last request of five gets
    three bytes of the body. *)
Definition last_breaks : environment :=
  {| net := fun _ n =>
       if Nat.eqb n 4
       then GetResponse {| status_code := 200; chunks := ["ab"; "c"];
                           broken := Some ConnectionError |}
       else GetRaises ConnectionError;
     is_dir := Scenario.data_folder;
     can_open := fun _ => true;
     can_remove := fun _ => true;
     write_error := fun _ _ _ => None;
     long_sleep := fun _ => None;
     overrun := 9;
     gunzip_lines := fun _ => None |}.

(** A manifest of thirteen entries. *)
Definition entry (i : string) : string := "a/" ++ i ++ ".warc.gz".

Definition thirteen : list string :=
  map entry ["01"; "02"; "03"; "04"; "05"; "06"; "07"; "08"; "09"; "10";
             "11"; "12"; "13"].

Definition thirteen_lines (data : bytes) : option (list string) :=
  if String.eqb data "GZ" then Some thirteen else None.

(** The manifest and the objects are served, but the destination of the
    first entry cannot be opened.  Of the ten workers, nine are busy
    with the calls after the first when its exception is read. *)
Definition first_unwritable : environment :=
  {| net := fun url _ =>
       if String.eqb url Scenario.manifest_url
       then GetResponse (Scenario.ok_response "GZ")
       else GetResponse (Scenario.ok_response "body");
     is_dir := Scenario.data_folder;
     can_open := fun p => negb (String.eqb p "data/01.warc.gz");
     can_remove := fun _ => true;
     write_error := fun _ _ _ => None;
     long_sleep := fun _ => None;
     overrun := 9;
     gunzip_lines := thirteen_lines |}.


(** A download folder in which an earlier run has left its manifest. *)
Definition left_manifest (data : bytes) : world :=
  {| fs := {[ "data/warc.paths.gz" := data ]}; trace := [] |}.

End Replay.

(** [preserves L m]: running [m] leaves every file other than [L] that
    exists beforehand in place, with its content. *)
Definition preserves (L : string) {A} (m : M A) : Prop :=
  forall w q d,
    q <> L -> fs w !! q = Some d -> fs (m w).2 !! q = Some d.

Section TraceFacts.

Lemma get_count_app t1 t2 :
  get_count (t1 ++ t2) = (get_count t1 + get_count t2)%nat.
Proof.
  induction t1 as [|e t1 IH]; simpl; [reflexivity|].
  destruct e; simpl; rewrite IH; reflexivity.
Qed.

Lemma slept_app t1 t2 : slept (t1 ++ t2) = slept t1 + slept t2.
Proof.
  induction t1 as [|e t1 IH]; simpl; [reflexivity|].
  destruct e; simpl; rewrite IH; lia.
Qed.

Lemma sleeps_app t1 t2 : sleeps (t1 ++ t2) = (sleeps t1 ++ sleeps t2)%list.
Proof.
  induction t1 as [|e t1 IH]; simpl; [reflexivity|].
  destruct e; simpl; rewrite IH; reflexivity.
Qed.

Lemma slept_sum t : slept t = fold_right Z.add 0 (sleeps t).
Proof.
  induction t as [|e t IH]; simpl; [reflexivity|].
  destruct e; simpl; rewrite IH; reflexivity.
Qed.

Lemma get_count_failed_attempts url n wait :
  get_count (failed_attempts url n wait) = n.
Proof.
  revert wait; induction n as [|n IH]; intros wait; simpl;
    [reflexivity | rewrite IH; reflexivity].
Qed.

Lemma sleeps_failed_attempts url n wait :
  sleeps (failed_attempts url n wait) = backoff_series wait n.
Proof.
  revert wait; induction n as [|n IH]; intros wait; simpl;
    [reflexivity | rewrite IH; reflexivity].
Qed.

Lemma slept_failed_attempts url n wait :
  slept (failed_attempts url n wait) = geometric_sum wait 2 n.
Proof.
  revert wait; induction n as [|n IH]; intros wait; simpl;
    [reflexivity | rewrite IH; reflexivity].
Qed.

Lemma geometric_sum_closed a n :
  geometric_sum a 2 n = a * (2 ^ Z.of_nat n - 1).
Proof.
  revert a; induction n as [|n IH]; intros a.
  - simpl. lia.
  - cbn [geometric_sum]. rewrite IH, Nat2Z.inj_succ, Z.pow_succ_r by lia. lia.
Qed.

Lemma backoff_series_nth wait n i :
  (i < n)%nat -> nth_error (backoff_series wait n) i = Some (wait * 2 ^ Z.of_nat i).
Proof.
  revert wait i; induction n as [|n IH]; intros wait i Hi; [lia|].
  destruct i as [|i]; cbn [backoff_series nth_error].
  - f_equal. change (Z.of_nat 0) with 0. lia.
  - rewrite IH by lia. f_equal.
    rewrite Nat2Z.inj_succ, Z.pow_succ_r by lia. lia.
Qed.

End TraceFacts.

Section WorldFacts.

Lemma add_events_add_events e1 e2 w :
  add_events e2 (add_events e1 w) = add_events (e1 ++ e2) w.
Proof. unfold add_events; simpl. rewrite <- app_assoc. reflexivity. Qed.

Lemma add_events_nil w : add_events [] w = w.
Proof. destruct w; unfold add_events; simpl. rewrite app_nil_r. reflexivity. Qed.

Lemma set_fs_same w : set_fs (fs w) w = w.
Proof. destruct w; reflexivity. Qed.

(** The writes of an attempt and the closing of the file, as the disk
    takes them. *)
Lemma write_chunks_run env {A} local_path i cs (k : M A) w :
  (write_chunks env local_path i cs ;;
   fd_close env local_path (i + length cs) ;; k) w
  = let stored :=
      disk_writes env local_path (get_count (trace w)) i cs (fs w) in
    if stored.1 then k (set_fs stored.2 w)
    else (Raise OSError, set_fs stored.2 w).
Proof.
  revert i w; induction cs as [|c cs IH]; intros i w.
  - cbn [write_chunks disk_writes length]. rewrite Nat.add_0_r.
    unfold bind, ret, fd_close.
    destruct (write_error env local_path (get_count (trace w)) i);
      [reflexivity | cbn [fst snd]; rewrite set_fs_same; reflexivity].
  - cbn [write_chunks disk_writes length].
    specialize (IH (S i)). replace (S i + length cs)%nat
      with (i + S (length cs))%nat in IH by lia.
    unfold bind at 1 2. unfold fd_write at 1.
    destruct (write_error env local_path (get_count (trace w)) i) as [l|];
      [reflexivity|].
    unfold bind in IH. rewrite IH. reflexivity.
Qed.

Lemma stream_to_file_run env local_path r w :
  stream_to_file env local_path r w
  = let stored :=
      disk_writes env local_path (get_count (trace w)) 0 (chunks r) (fs w) in
    if stored.1 then
      match broken r with
      | Some e => (Raise (RequestException e), set_fs stored.2 w)
      | None => (Ret tt, set_fs stored.2 w)
      end
    else (Raise OSError, set_fs stored.2 w).
Proof.
  unfold stream_to_file.
  change (length (chunks r)) with (0 + length (chunks r))%nat.
  rewrite write_chunks_run. cbv zeta.
  destruct (disk_writes env local_path _ 0 (chunks r) (fs w)) as [[|] f];
    cbn [fst snd]; [destruct (broken r)|]; reflexivity.
Qed.

Lemma disk_writes_accepted env p n i cs (f : gmap string string) :
  disk_accepts env p ->
  disk_writes env p n i cs f = (true, fold_left (fs_write p) cs f).
Proof.
  intros Hd. revert i f; induction cs as [|c cs IH]; intros i f;
    cbn [disk_writes fold_left]; rewrite Hd; [reflexivity | apply IH].
Qed.

Lemma disk_writes_passed env p n i cs (f : gmap string string) :
  (disk_writes env p n i cs f).1 = true ->
  (disk_writes env p n i cs f).2 = fold_left (fs_write p) cs f.
Proof.
  revert i f; induction cs as [|c cs IH]; intros i f; cbn [disk_writes fold_left];
    destruct (write_error env p n i); try discriminate; [reflexivity | apply IH].
Qed.

Lemma disk_writes_frame env p n i cs (f : gmap string string) q :
  q <> p -> (disk_writes env p n i cs f).2 !! q = f !! q.
Proof.
  intros Hq. revert i f; induction cs as [|c cs IH]; intros i f;
    cbn [disk_writes]; destruct (write_error env p n i); cbn [snd];
    try (apply lookup_insert_ne; congruence); [reflexivity|].
  rewrite IH. unfold fs_write. apply lookup_insert_ne. congruence.
Qed.

Lemma disk_store_frame env p n r (f : gmap string string) q :
  q <> p -> (disk_store env p n r f).2 !! q = f !! q.
Proof.
  intros Hq. unfold disk_store. rewrite disk_writes_frame by exact Hq.
  apply lookup_insert_ne. congruence.
Qed.

End WorldFacts.

(** ** Generic facts about runs *)

Create HintDb grows.

Section Grows.
Context {A B : Type} (P : event -> Prop).

Lemma grows_ret (a : A) : grows P (ret a).
Proof. intros w. exists []. simpl. rewrite app_nil_r. auto. Qed.

Lemma grows_raise (e : exn) : grows P (@raise A e).
Proof. intros w. exists []. simpl. rewrite app_nil_r. auto. Qed.

Lemma grows_exit (c : Z) : grows P (@exit_ A c).
Proof. intros w. exists []. simpl. rewrite app_nil_r. auto. Qed.

Lemma grows_lift (o : outcome A) : grows P (lift o).
Proof. intros w. exists []. simpl. rewrite app_nil_r. auto. Qed.

Lemma grows_bind (m : M A) (k : A -> M B) :
  grows P m -> (forall a, grows P (k a)) -> grows P (bind m k).
Proof.
  intros Hm Hk w. unfold bind.
  destruct (Hm w) as (e1 & E1 & F1).
  destruct (m w) as [[a|e|c] w1]; simpl in *.
  - destruct (Hk a w1) as (e2 & E2 & F2).
    exists (e1 ++ e2)%list. rewrite E2, E1, app_assoc. split; [reflexivity|].
    apply Forall_app; auto.
  - exists e1; auto.
  - exists e1; auto.
Qed.

Lemma grows_try (m : M A) (h : request_exception -> M A) :
  grows P m -> (forall e, grows P (h e)) -> grows P (try_except_request m h).
Proof.
  intros Hm Hh w. unfold try_except_request.
  destruct (Hm w) as (e1 & E1 & F1).
  destruct (m w) as [[a|e|c] w1]; simpl in *; try (exists e1; auto; fail).
  destruct e as [e| | | | |]; simpl; try (exists e1; auto; fail).
  destruct (Hh e w1) as (e2 & E2 & F2).
  exists (e1 ++ e2)%list. rewrite E2, E1, app_assoc. split; [reflexivity|].
  apply Forall_app; auto.
Qed.

Lemma grows_weaken (Q : event -> Prop) (m : M A) :
  (forall e, P e -> Q e) -> grows P m -> grows Q m.
Proof.
  intros HPQ Hm w. destruct (Hm w) as (evs & E & F).
  exists evs; split; [exact E|]. eapply Forall_impl; eauto.
Qed.

End Grows.

Section GrowsPrimitives.
Context (P : event -> Prop).

Lemma grows_emit e : P e -> grows P (emit e).
Proof. intros He w. exists [e]. simpl. auto. Qed.

Lemma grows_log lvl msg : P (EvLog lvl msg) -> grows P (log lvl msg).
Proof. apply grows_emit. Qed.

Lemma grows_sleep env s : P (EvSleep s) -> grows P (sleep env s).
Proof.
  intros Hs. unfold sleep.
  destruct ((s <? - SLEEP_MAX) || (SLEEP_MAX <? s)); [apply grows_raise|].
  destruct (s <? 0); [apply grows_raise|].
  destruct (s <=? SLEEP_SURE); [apply grows_emit, Hs|].
  destruct (long_sleep env s); [apply grows_raise | apply grows_emit, Hs].
Qed.

Lemma grows_makedirs d : P (EvMakedirs d) -> grows P (makedirs d).
Proof. apply grows_emit. Qed.

Lemma grows_still {A} (m : M A) :
  (forall w, trace (m w).2 = trace w) -> grows P m.
Proof. intros Hm w. exists []. rewrite Hm, app_nil_r. auto. Qed.

Lemma grows_path_exists env p : grows P (path_exists env p).
Proof. apply grows_still. reflexivity. Qed.

Lemma grows_remove env p : grows P (remove env p).
Proof.
  apply grows_still. intros w. unfold remove.
  destruct (is_dir env p || negb (can_remove env p)); [reflexivity|].
  destruct (fs w !! p); reflexivity.
Qed.

Lemma grows_fd_write env p i c : grows P (fd_write env p i c).
Proof.
  apply grows_still. intros w. unfold fd_write.
  destruct (write_error env p _ i); reflexivity.
Qed.

Lemma grows_fd_close env p i : grows P (fd_close env p i).
Proof.
  apply grows_still. intros w. unfold fd_close.
  destruct (write_error env p _ i); reflexivity.
Qed.

Lemma grows_open_wb env p : grows P (open_wb env p).
Proof.
  apply grows_still. intros w. unfold open_wb.
  destruct (opens env p); reflexivity.
Qed.

Lemma grows_requests_get env url : P (EvGet url) -> grows P (requests_get env url).
Proof.
  intros Hg w. exists [EvGet url]. unfold requests_get.
  destruct (net env url _); simpl; auto.
Qed.

Lemma grows_raise_for_status r : grows P (raise_for_status r).
Proof.
  unfold raise_for_status. destruct (is_error_status _);
    [apply grows_raise | apply grows_ret].
Qed.

Lemma grows_gzip_read_lines env p : grows P (gzip_read_lines env p).
Proof.
  apply grows_still. intros w. unfold gzip_read_lines.
  destruct (fs w !! p) as [d|]; [destruct (gunzip_lines env d)|]; reflexivity.
Qed.

Lemma grows_write_chunks env p i cs : grows P (write_chunks env p i cs).
Proof.
  revert i; induction cs as [|c cs IH]; intros i; simpl; [apply grows_ret|].
  apply grows_bind; [apply grows_fd_write | intros _; apply IH].
Qed.

Lemma grows_stream_to_file env p r : grows P (stream_to_file env p r).
Proof.
  unfold stream_to_file.
  apply grows_bind; [apply grows_write_chunks | intros _].
  apply grows_bind; [apply grows_fd_close | intros _].
  destruct (broken r); [apply grows_raise | apply grows_ret].
Qed.

Lemma grows_run_unread {A} (f : string -> M A) (paths : list string) :
  (forall p, In p paths -> grows P (f p)) -> grows P (run_unread f paths).
Proof.
  induction paths as [|p ps IH]; intros Hf; [apply grows_ret|].
  intros w. cbn [run_unread].
  destruct (Hf p (or_introl eq_refl) w) as (e1 & E1 & F1).
  destruct (IH (fun q Hq => Hf q (or_intror Hq)) (f p w).2) as (e2 & E2 & F2).
  exists (e1 ++ e2)%list. rewrite E2, E1, app_assoc. split; [reflexivity|].
  apply Forall_app; auto.
Qed.

Lemma grows_executor_map env {A} (f : string -> M A) (paths : list string) :
  (forall p, In p paths -> grows P (f p)) -> grows P (executor_map env f paths).
Proof.
  induction paths as [|p ps IH]; intros Hf; [apply grows_ret|].
  intros w. cbn [executor_map].
  destruct (Hf p (or_introl eq_refl) w) as (e1 & E1 & F1).
  assert (Hrest : forall w1, exists e2,
             trace (run_unread f (firstn (overrun env) ps) w1).2
             = (trace w1 ++ e2)%list /\ Forall P e2).
  { apply grows_run_unread. intros q Hq. apply Hf. right.
    rewrite <- (firstn_skipn (overrun env) ps). apply in_or_app. left. exact Hq. }
  destruct (f p w) as [[a|e|c] w1]; cbn [snd] in *.
  - destruct (IH (fun q Hq => Hf q (or_intror Hq)) w1) as (e2 & E2 & F2).
    destruct (executor_map env f ps w1) as [rs w2]; cbn [snd] in *.
    exists (e1 ++ e2)%list. rewrite E2, E1, app_assoc. split; [reflexivity|].
    apply Forall_app; auto.
  - destruct (Hrest w1) as (e2 & E2 & F2).
    exists (e1 ++ e2)%list. rewrite E2, E1, app_assoc. split; [reflexivity|].
    apply Forall_app; auto.
  - destruct (Hrest w1) as (e2 & E2 & F2).
    exists (e1 ++ e2)%list. rewrite E2, E1, app_assoc. split; [reflexivity|].
    apply Forall_app; auto.
Qed.

End GrowsPrimitives.

#[export] Hint Resolve grows_ret grows_raise grows_exit grows_lift grows_path_exists
  grows_remove grows_fd_write grows_fd_close grows_open_wb grows_raise_for_status
  grows_gzip_read_lines grows_write_chunks : grows.

(** ** Payloads *)

Section Payloads.

Lemma append_empty_r (s : string) : (s ++ EmptyString)%string = s.
Proof.
  induction s as [|c s IH]; [reflexivity|].
  change (String c (s ++ EmptyString) = String c s). rewrite IH. reflexivity.
Qed.

Lemma append_assoc (s t u : string) :
  ((s ++ t) ++ u)%string = (s ++ (t ++ u))%string.
Proof.
  induction s as [|c s IH]; [reflexivity|].
  change (String c ((s ++ t) ++ u) = String c (s ++ (t ++ u))).
  rewrite IH. reflexivity.
Qed.

Lemma fold_fs_write_content local_path cs (f : gmap string string) d :
  f !! local_path = Some d ->
  fold_left (fs_write local_path) cs f !! local_path
  = Some (d ++ join_chunks cs)%string.
Proof.
  revert f d; induction cs as [|c cs IH]; intros f d Hf; cbn [fold_left join_chunks].
  - rewrite append_empty_r. exact Hf.
  - rewrite (IH _ (d ++ c)%string).
    + rewrite append_assoc. reflexivity.
    + unfold fs_write. rewrite Hf. apply lookup_insert_eq.
Qed.

Lemma written_content local_path cs (f : gmap string string) :
  fold_left (fs_write local_path) cs (<[local_path := EmptyString]> f) !! local_path
  = Some (join_chunks cs).
Proof.
  rewrite (fold_fs_write_content local_path cs _ EmptyString)
    by apply lookup_insert_eq.
  reflexivity.
Qed.

(** A body that the disk took to its end is what the file holds. *)
Lemma disk_store_content env p n r (f : gmap string string) :
  (disk_store env p n r f).1 = true ->
  (disk_store env p n r f).2 !! p = Some (join_chunks (chunks r)).
Proof.
  unfold disk_store. intros Hok.
  rewrite disk_writes_passed by exact Hok. apply written_content.
Qed.

Lemma disk_store_accepted env p n r (f : gmap string string) :
  disk_accepts env p -> (disk_store env p n r f).1 = true.
Proof.
  intros Hd. unfold disk_store. rewrite disk_writes_accepted by exact Hd.
  reflexivity.
Qed.

End Payloads.

(** ** [download_with_retries] *)

Section Retries.
Context (env : environment).

Lemma complete_not_network_error openable r :
  complete r = true -> ends_in_network_error openable (GetResponse r) = false.
Proof.
  unfold complete. cbn [ends_in_network_error].
  destruct (is_error_status (status_code r)); [discriminate|].
  destruct (broken r); [discriminate|]. intros _.
  destruct openable; reflexivity.
Qed.

Lemma breaks_off_not_early r :
  breaks_off r = true -> fails_before_body (GetResponse r) = false.
Proof.
  unfold breaks_off. cbn [fails_before_body].
  destruct (is_error_status (status_code r)); [discriminate | reflexivity].
Qed.

Lemma breaks_off_not_complete r : breaks_off r = true -> complete r = false.
Proof.
  unfold breaks_off, complete.
  destruct (is_error_status (status_code r)); [discriminate|].
  destruct (broken r); [reflexivity | discriminate].
Qed.

Lemma fails_before_body_network_error openable g :
  fails_before_body g = true -> ends_in_network_error openable g = true.
Proof.
  destruct g as [e|r]; simpl; [auto|]. intros ->. reflexivity.
Qed.

(** One pass through the [try] body, case by case. *)
Lemma attempt_unfold url local_path w :
  attempt env url local_path w
  = let started := [EvLog INFO (MsgAttempting url); EvGet url] in
    match net env url (get_count (trace w)) with
    | GetRaises e => (Raise (RequestException e), add_events started w)
    | GetResponse r =>
        if is_error_status (status_code r)
        then (Raise (RequestException HTTPError), add_events started w)
        else if opens env local_path then
          let stored :=
            disk_store env local_path (S (get_count (trace w))) r (fs w) in
          if stored.1 then
            match broken r with
            | Some e =>
                (Raise (RequestException e),
                 {| fs := stored.2; trace := (trace w ++ started)%list |})
            | None =>
                (Ret true,
                 {| fs := stored.2;
                    trace := (trace w ++ started
                                ++ [EvLog INFO (MsgDownloaded local_path)])%list |})
            end
          else
            (Raise OSError,
             {| fs := stored.2; trace := (trace w ++ started)%list |})
        else (Raise OSError, add_events started w)
    end.
Proof.
  unfold attempt, bind, log, emit, requests_get. cbn [trace add_events fst snd].
  rewrite get_count_app. cbn [get_count]. rewrite Nat.add_0_r.
  destruct (net env url (get_count (trace w))) as [e|r].
  - rewrite add_events_add_events. reflexivity.
  - unfold raise_for_status. destruct (is_error_status (status_code r)).
    + unfold raise. rewrite add_events_add_events. reflexivity.
    + unfold ret, open_wb. destruct (opens env local_path).
      * rewrite stream_to_file_run. cbv zeta. unfold disk_store.
        unfold set_fs, add_events; cbn [fs trace].
        rewrite !get_count_app. cbn [get_count].
        rewrite !Nat.add_0_r, Nat.add_1_r.
        destruct (disk_writes env local_path (S (get_count (trace w))) 0
                    (chunks r) (<[local_path := EmptyString]> (fs w)))
          as [[|] f]; cbn [fst snd];
          [destruct (broken r)|]; cbn [fs trace];
          rewrite <- ?app_assoc; reflexivity.
      * rewrite add_events_add_events. reflexivity.
Qed.

(** The ways in which one pass through the [try] body ends: the download
    is complete; a network error is raised, before the destination is
    opened or after a part of the body was written; or the file system
    raises, when the destination is opened or while it is written. *)
Lemma attempt_cases url local_path w :
  let c := get_count (trace w) in
  let started := [EvLog INFO (MsgAttempting url); EvGet url] in
  let stored r := disk_store env local_path (S c) r (fs w) in
  (exists r,
     net env url c = GetResponse r /\ complete r = true
     /\ opens env local_path = true /\ (stored r).1 = true
     /\ attempt env url local_path w
        = (Ret true,
           {| fs := (stored r).2;
              trace := (trace w ++ started
                          ++ [EvLog INFO (MsgDownloaded local_path)])%list |}))
  \/ (exists e f,
        ends_in_network_error (opens env local_path) (net env url c) = true
        /\ attempt env url local_path w
           = (Raise (RequestException e),
              {| fs := f; trace := (trace w ++ started)%list |})
        /\ (fails_before_body (net env url c) = true /\ f = fs w
            \/ exists r, net env url c = GetResponse r /\ breaks_off r = true
                         /\ opens env local_path = true
                         /\ (stored r).1 = true /\ f = (stored r).2))
  \/ (exists f,
        fails_before_body (net env url c) = false
        /\ attempt env url local_path w
           = (Raise OSError, {| fs := f; trace := (trace w ++ started)%list |})
        /\ (opens env local_path = false /\ f = fs w
            \/ exists r, net env url c = GetResponse r
                         /\ opens env local_path = true
                         /\ (stored r).1 = false /\ f = (stored r).2)).
Proof.
  cbv zeta. rewrite attempt_unfold. cbv zeta.
  unfold complete, breaks_off.
  destruct (net env url (get_count (trace w))) as [e|r];
    cbn [ends_in_network_error fails_before_body].
  - right; left. exists e, (fs w). split; [reflexivity|].
    split; [reflexivity | left; split; reflexivity].
  - destruct (is_error_status (status_code r)) eqn:Hst; cbn [negb andb orb].
    + right; left. exists HTTPError, (fs w). split; [reflexivity|].
      split; [reflexivity | left; split; reflexivity].
    + destruct (opens env local_path) eqn:Hopen; cbn [andb].
      * destruct (disk_store env local_path (S (get_count (trace w))) r (fs w)).1
          eqn:Hok.
        -- destruct (broken r) as [e|] eqn:Hbr.
           ++ right; left. eexists e, _. split; [reflexivity|].
              split; [reflexivity|]. right. exists r.
              rewrite Hst, Hbr. repeat split; try reflexivity. exact Hok.
           ++ left. exists r. rewrite Hst, Hbr.
              repeat split; try reflexivity. exact Hok.
        -- right; right. eexists. split; [reflexivity|].
           split; [reflexivity|]. right. exists r.
           repeat split; try reflexivity. exact Hok.
      * right; right. exists (fs w). split; [reflexivity|].
        split; [reflexivity | left; split; reflexivity].
Qed.

Lemma grows_attempt P url local_path :
  (forall e, (forall u, e <> EvGet u) -> P e) -> P (EvGet url) ->
  grows P (attempt env url local_path).
Proof.
  intros Hlog Hget. unfold attempt.
  apply grows_bind; [apply grows_log, Hlog; discriminate | intros _].
  apply grows_bind; [apply grows_requests_get, Hget | intros r].
  apply grows_bind; [auto with grows | intros _].
  apply grows_bind; [auto with grows | intros _].
  apply grows_bind; [apply grows_stream_to_file | intros _].
  apply grows_bind; [apply grows_log, Hlog; discriminate | intros _].
  auto with grows.
Qed.

Lemma grows_retry_loop P url local_path retries n wait :
  (forall e, (forall u, e <> EvGet u) -> P e) -> P (EvGet url) ->
  grows P (retry_loop env url local_path retries n wait).
Proof.
  intros Hlog Hget. revert wait; induction n as [|n IH]; intros wait; simpl.
  - apply grows_bind; [apply grows_log, Hlog; discriminate | auto with grows].
  - apply grows_try; [apply grows_attempt; assumption | intros _].
    apply grows_bind; [apply grows_log, Hlog; discriminate | intros _].
    apply grows_bind; [apply grows_sleep, Hlog; discriminate | intros _].
    apply IH.
Qed.

(** The requests of [download_with_retries] all go to [url]. *)
Lemma grows_download_with_retries url local_path retries backoff :
  grows (gets_within (eq url))
    (download_with_retries env url local_path retries backoff).
Proof.
  apply grows_retry_loop.
  - intros e He u ->. destruct (He u eq_refl).
  - intros u [= ->]. reflexivity.
Qed.

(** The [except] clause: when [time.sleep] takes the wait, the loop goes
    on; when it does not, its exception ends the call. *)
Lemma retry_handler_run {A} lvl msg s (k : M A) w :
  sleep_accepts env s = true ->
  (log lvl msg ;; sleep env s ;; k) w
  = k (add_events [EvLog lvl msg; EvSleep s] w).
Proof.
  unfold sleep_accepts, SLEEP_MAX, SLEEP_SURE. intros Hs.
  apply andb_true_iff in Hs as [H0 Hs].
  unfold bind, log, sleep, emit, SLEEP_MAX, SLEEP_SURE.
  replace (s <? 0) with false by lia.
  replace (s <? - (9223372036)) with false by lia.
  destruct (s <=? 4294967) eqn:Hsure.
  - replace (9223372036 <? s) with false by lia.
    cbn [orb]. rewrite add_events_add_events. reflexivity.
  - cbn [orb] in Hs. apply andb_true_iff in Hs as [Hmax Hclock].
    replace (9223372036 <? s) with false by lia.
    cbn [orb]. destruct (long_sleep env s); [discriminate|].
    rewrite add_events_add_events. reflexivity.
Qed.

Lemma retry_handler_refused {A} lvl msg s (k : M A) w :
  sleep_accepts env s = false ->
  exists e,
    (log lvl msg ;; sleep env s ;; k) w
    = (Raise e, add_events [EvLog lvl msg] w)
    /\ (e = OSError \/ e = ValueError \/ e = OverflowError).
Proof.
  unfold sleep_accepts, SLEEP_MAX, SLEEP_SURE. intros Hs.
  unfold bind, log, sleep, emit, SLEEP_MAX, SLEEP_SURE, raise.
  destruct ((s <? - (9223372036)) || (9223372036 <? s)) eqn:Hover.
  - exists OverflowError. split; [reflexivity | right; right; reflexivity].
  - apply orb_false_iff in Hover as [H1 H2].
    destruct (s <? 0) eqn:Hneg.
    + exists ValueError. split; [reflexivity | right; left; reflexivity].
    + replace (0 <=? s) with true in Hs by lia.
      replace (s <=? 9223372036) with true in Hs by lia.
      cbn [andb] in Hs.
      destruct (s <=? 4294967); [discriminate|]. cbn [orb] in Hs.
      destruct (long_sleep env s) as [[|]|]; [| |discriminate].
      * exists OverflowError. split; [reflexivity | right; right; reflexivity].
      * exists OSError. split; [reflexivity | left; reflexivity].
Qed.

Lemma retry_loop_S url local_path retries n wait w :
  retry_loop env url local_path retries (S n) wait w
  = try_except_request (attempt env url local_path)
      (fun _ =>
         log WARNING (MsgRetrying url wait) ;;
         sleep env wait ;;
         retry_loop env url local_path retries n (wait * 2)) w.
Proof. reflexivity. Qed.

Lemma waits_accepted_S wait n :
  waits_accepted env wait (S n) = true ->
  sleep_accepts env wait = true /\ waits_accepted env (wait * 2) n = true.
Proof.
  unfold waits_accepted. cbn [backoff_series forallb].
  intros Hw. apply andb_true_iff in Hw. exact Hw.
Qed.

(** When every attempt ends in a network error, the waits are taken and
    the disk takes what is written, the loop runs to its end. *)
Lemma retry_loop_fails url local_path retries :
  (forall n,
     ends_in_network_error (opens env local_path) (net env url n) = true) ->
  (forall n, fails_before_body (net env url n) = true)
  \/ disk_accepts env local_path ->
  forall n wait w,
    waits_accepted env wait n = true ->
    exists f,
      retry_loop env url local_path retries n wait w
      = (Ret false,
         {| fs := f;
            trace := (trace w ++ failed_attempts url n wait
                        ++ [EvLog ERROR (MsgFailedAfter url retries)])%list |})
      /\ ((forall n, fails_before_body (net env url n) = true) -> f = fs w).
Proof.
  intros Hfail Hdisk n. induction n as [|n IH]; intros wait w Hw.
  - exists (fs w). split; [reflexivity | auto].
  - apply waits_accepted_S in Hw as [Hs Hw].
    rewrite retry_loop_S. cbn [failed_attempts]. unfold try_except_request.
    destruct (attempt_cases url local_path w)
      as [(r & Hnet & Hc & _ & _ & E)
         | [(e & f0 & _ & E & Hf0) | (f0 & Hnb & E & Hf0)]].
    + pose proof (Hfail (get_count (trace w))) as Hf. rewrite Hnet in Hf.
      rewrite (complete_not_network_error _ r Hc) in Hf. discriminate.
    + rewrite E, (retry_handler_run _ _ _ _ _ Hs).
      match goal with |- context [retry_loop _ _ _ _ _ _ ?w1] =>
        destruct (IH (wait * 2) w1 Hw) as (f & E' & Hfs) end.
      exists f. rewrite E'. cbn [trace add_events fs app] in *.
      rewrite <- !app_assoc. split; [reflexivity|].
      intros Hall. rewrite (Hfs Hall).
      destruct Hf0 as [[_ ->] | (r & Hnet & Hbr & _)]; [reflexivity|].
      pose proof (Hall (get_count (trace w))) as He. rewrite Hnet in He.
      rewrite (breaks_off_not_early r Hbr) in He. discriminate.
    + exfalso. destruct Hdisk as [Hall | Hd].
      * rewrite Hall in Hnb. discriminate.
      * destruct Hf0 as [[Hop _] | (r & Hnet & _ & Hok & _)].
        -- pose proof (Hfail (get_count (trace w))) as Hf.
           destruct (net env url (get_count (trace w))) as [e|r];
             cbn in Hf, Hnb; [discriminate|].
           rewrite Hnb, Hop in Hf. discriminate.
        -- rewrite (disk_store_accepted env local_path _ r (fs w) Hd) in Hok.
           discriminate.
Qed.

(** Attempts that fail before the body is streamed leave the files as
    they are, however the call ends. *)
Lemma retry_loop_early_fs url local_path retries :
  (forall n, fails_before_body (net env url n) = true) ->
  forall n wait w,
    fs (retry_loop env url local_path retries n wait w).2 = fs w.
Proof.
  intros Hall n. induction n as [|n IH]; intros wait w; [reflexivity|].
  rewrite retry_loop_S. unfold try_except_request.
  destruct (attempt_cases url local_path w)
    as [(r & Hnet & Hc & _ & _ & E)
       | [(e & f0 & _ & E & Hf0) | (f0 & Hnb & _)]].
  - pose proof (Hall (get_count (trace w))) as He. rewrite Hnet in He.
    pose proof (complete_not_network_error true r Hc) as Hn.
    rewrite (fails_before_body_network_error true _ He) in Hn. discriminate.
  - rewrite E.
    assert (f0 = fs w) as ->.
    { destruct Hf0 as [[_ ->] | (r & Hnet & Hbr & _)]; [reflexivity|].
      pose proof (Hall (get_count (trace w))) as He. rewrite Hnet in He.
      rewrite (breaks_off_not_early r Hbr) in He. discriminate. }
    destruct (sleep_accepts env wait) eqn:Hs.
    + rewrite (retry_handler_run _ _ _ _ _ Hs), IH. reflexivity.
    + destruct (retry_handler_refused WARNING (MsgRetrying url wait) wait
                  (retry_loop env url local_path retries n (wait * 2))
                  {| fs := fs w;
                     trace := (trace w
                                 ++ [EvLog INFO (MsgAttempting url); EvGet url])%list |}
                  Hs) as (x & -> & _).
      reflexivity.
  - rewrite Hall in Hnb. discriminate.
Qed.

(** No pass changes a file other than the destination. *)
Lemma attempt_frame url local_path w q :
  q <> local_path ->
  fs (attempt env url local_path w).2 !! q = fs w !! q.
Proof.
  intros Hq.
  destruct (attempt_cases url local_path w)
    as [(r & _ & _ & _ & _ & E)
       | [(e & f & _ & E & Hf) | (f & _ & E & Hf)]];
    rewrite E; cbn [snd fs add_events].
  - apply disk_store_frame, Hq.
  - destruct Hf as [[_ ->] | (r & _ & _ & _ & _ & ->)];
      [reflexivity | apply disk_store_frame, Hq].
  - destruct Hf as [[_ ->] | (r & _ & _ & _ & ->)];
      [reflexivity | apply disk_store_frame, Hq].
Qed.

(** What the [except] clause and the rest of the loop do, in the two
    cases of the wait. *)
Lemma retry_handler_cases {A} lvl msg s (k : M A) w :
  (sleep_accepts env s = true
   /\ (log lvl msg ;; sleep env s ;; k) w
      = k (add_events [EvLog lvl msg; EvSleep s] w))
  \/ (sleep_accepts env s = false
      /\ exists e,
           (log lvl msg ;; sleep env s ;; k) w
           = (Raise e, add_events [EvLog lvl msg] w)).
Proof.
  destruct (sleep_accepts env s) eqn:Hs.
  - left. split; [reflexivity | apply retry_handler_run, Hs].
  - right. split; [reflexivity|].
    destruct (retry_handler_refused lvl msg s k w Hs) as (e & E & _).
    exists e. exact E.
Qed.

Lemma retry_loop_frame url local_path retries n wait w q :
  q <> local_path ->
  fs (retry_loop env url local_path retries n wait w).2 !! q = fs w !! q.
Proof.
  intros Hq. revert wait w; induction n as [|n IH]; intros wait w; [reflexivity|].
  rewrite retry_loop_S. unfold try_except_request.
  pose proof (attempt_frame url local_path w q Hq) as Hfr.
  destruct (attempt env url local_path w) as [[b|e|c] w1]; cbn [snd] in *;
    try exact Hfr.
  destruct e as [e| | | | |]; cbn [snd]; try exact Hfr.
  destruct (retry_handler_cases WARNING (MsgRetrying url wait) wait
              (retry_loop env url local_path retries n (wait * 2)) w1)
    as [[_ ->] | [_ (x & ->)]].
  - rewrite IH. exact Hfr.
  - exact Hfr.
Qed.

(** [True] is returned only for a complete download. *)
Lemma retry_loop_true url local_path retries n wait w w' :
  retry_loop env url local_path retries n wait w = (Ret true, w') ->
  exists r,
    (0 < get_count (trace w'))%nat
    /\ net env url (get_count (trace w') - 1) = GetResponse r
    /\ complete r = true
    /\ opens env local_path = true
    /\ fs w' !! local_path = Some (join_chunks (chunks r)).
Proof.
  revert wait w w'; induction n as [|n IH]; intros wait w w' Hrun;
    [discriminate|].
  rewrite retry_loop_S in Hrun. unfold try_except_request in Hrun.
  destruct (attempt_cases url local_path w)
    as [(r & Hnet & Hc & Hopen & Hok & E)
       | [(e & f & _ & E & _) | (f & _ & E & _)]];
    rewrite E in Hrun.
  - injection Hrun as <-. exists r. cbn [trace fs].
    rewrite !get_count_app.
    change (get_count [EvLog INFO (MsgAttempting url); EvGet url;
                       EvLog INFO (MsgDownloaded local_path)]) with 1%nat.
    replace (get_count (trace w) + 1 - 1)%nat with (get_count (trace w)) by lia.
    split; [lia|]. split; [exact Hnet|]. split; [exact Hc|].
    split; [exact Hopen | apply disk_store_content, Hok].
  - match type of Hrun with (_ ;; _ ;; ?k) ?w1 = _ =>
      destruct (retry_handler_cases WARNING (MsgRetrying url wait) wait k w1)
        as [[_ Ek] | [_ (x & Ek)]]; rewrite Ek in Hrun
    end.
    + exact (IH _ _ _ Hrun).
    + discriminate.
  - discriminate.
Qed.

(** A complete response after [j] failed attempts. *)
Lemma retry_loop_recovers url local_path retries r :
  complete r = true ->
  opens env local_path = true ->
  disk_accepts env local_path ->
  forall j n wait w,
    (j < n)%nat ->
    waits_accepted env wait j = true ->
    (forall i, (i < j)%nat ->
       ends_in_network_error (opens env local_path)
         (net env url (get_count (trace w) + i)) = true) ->
    net env url (get_count (trace w) + j) = GetResponse r ->
    exists f,
      retry_loop env url local_path retries n wait w
      = (Ret true,
         {| fs := f;
            trace := (trace w ++ failed_attempts url j wait
                        ++ [EvLog INFO (MsgAttempting url); EvGet url;
                            EvLog INFO (MsgDownloaded local_path)])%list |})
      /\ f !! local_path = Some (join_chunks (chunks r)).
Proof.
  intros Hc Hopen Hd j.
  induction j as [|j IH]; intros n wait w Hjn Hw Hfail Hnet;
    (destruct n as [|n]; [lia|]);
    rewrite retry_loop_S; cbn [failed_attempts]; unfold try_except_request;
    destruct (attempt_cases url local_path w)
      as [(r1 & Hnet1 & Hc1 & _ & Hok & E)
         | [(e & f & Herr & E & _) | (f & _ & _ & Hf)]].
  - rewrite Nat.add_0_r in Hnet. rewrite Hnet in Hnet1.
    injection Hnet1 as <-. rewrite E. eexists. split; [reflexivity|].
    apply disk_store_content, Hok.
  - rewrite Nat.add_0_r in Hnet. rewrite Hnet in Herr.
    rewrite (complete_not_network_error _ r Hc) in Herr. discriminate.
  - exfalso. destruct Hf as [[Hop _] | (r1 & _ & _ & Hok & _)];
      [congruence|].
    rewrite (disk_store_accepted env local_path _ r1 (fs w) Hd) in Hok.
    discriminate.
  - pose proof (Hfail 0%nat ltac:(lia)) as H0. rewrite Nat.add_0_r, Hnet1 in H0.
    rewrite (complete_not_network_error _ r1 Hc1) in H0. discriminate.
  - apply waits_accepted_S in Hw as [Hs Hw].
    rewrite E, (retry_handler_run _ _ _ _ _ Hs).
    match goal with |- context [retry_loop _ _ _ _ _ _ ?w1] =>
      destruct (IH n (wait * 2) w1) as (f' & E' & Hf')
    end.
    + lia.
    + exact Hw.
    + intros i Hi. cbn [trace add_events]. rewrite !get_count_app.
      cbn [get_count]. rewrite Nat.add_0_r.
      replace (get_count (trace w) + 1 + i)%nat
        with (get_count (trace w) + S i)%nat by lia.
      apply Hfail. lia.
    + cbn [trace add_events]. rewrite !get_count_app.
      cbn [get_count]. rewrite Nat.add_0_r.
      replace (get_count (trace w) + 1 + j)%nat
        with (get_count (trace w) + S j)%nat by lia.
      exact Hnet.
    + exists f'. rewrite E'. cbn [trace add_events]. rewrite <- !app_assoc.
      split; [reflexivity | exact Hf'].
  - exfalso. destruct Hf as [[Hop _] | (r1 & _ & _ & Hok & _)];
      [congruence|].
    rewrite (disk_store_accepted env local_path _ r1 (fs w) Hd) in Hok.
    discriminate.
Qed.

(** How many requests and which waits, whatever the network and the file
    system do. *)
Lemma retry_loop_bounds url local_path retries n wait w :
  exists evs j,
    trace (retry_loop env url local_path retries n wait w).2
    = (trace w ++ evs)%list
    /\ (get_count evs <= n)%nat
    /\ (1 <= n -> 1 <= get_count evs)%nat
    /\ sleeps evs = backoff_series wait j
    /\ (j <= get_count evs)%nat
    /\ ((retry_loop env url local_path retries n wait w).1 = Ret false ->
        get_count evs = n /\ j = n)
    /\ ((retry_loop env url local_path retries n wait w).1 = Ret true ->
        get_count evs = S j).
Proof.
  revert wait w; induction n as [|n IH]; intros wait w.
  - exists [EvLog ERROR (MsgFailedAfter url retries)], 0%nat.
    cbn. repeat split; try reflexivity; try lia. discriminate.
  - rewrite retry_loop_S. unfold try_except_request.
    destruct (attempt_cases url local_path w)
      as [(r & _ & _ & _ & _ & E)
         | [(e & f & _ & E & _) | (f & _ & E & _)]];
      rewrite E.
    + exists [EvLog INFO (MsgAttempting url); EvGet url;
              EvLog INFO (MsgDownloaded local_path)], 0%nat.
      cbn. repeat split; try reflexivity; try lia; discriminate.
    + match goal with |- context [(_ ;; _ ;; ?k) ?w1] =>
        destruct (retry_handler_cases WARNING (MsgRetrying url wait) wait k w1)
          as [[_ Ek] | [_ (x & Ek)]]; rewrite Ek
      end.
      * match goal with |- context [retry_loop _ _ _ _ _ _ ?w1] =>
          destruct (IH (wait * 2) w1)
            as (evs & j & T & Hle & _ & Hs & Hj & Hfalse & Htrue)
        end.
        exists ([EvLog INFO (MsgAttempting url); EvGet url;
                 EvLog WARNING (MsgRetrying url wait); EvSleep wait] ++ evs)%list,
               (S j).
        rewrite T. cbn [trace add_events]. rewrite <- !app_assoc.
        split; [reflexivity|].
        rewrite get_count_app, sleeps_app.
        cbn [get_count sleeps backoff_series app].
        rewrite Hs.
        split; [lia|]. split; [lia|]. split; [reflexivity|]. split; [lia|].
        split; intros Hout.
        -- destruct (Hfalse Hout). lia.
        -- specialize (Htrue Hout). lia.
      * exists [EvLog INFO (MsgAttempting url); EvGet url;
                EvLog WARNING (MsgRetrying url wait)], 0%nat.
        cbn [snd fst trace add_events]. rewrite <- !app_assoc.
        cbn. repeat split; try reflexivity; try lia; discriminate.
    + exists [EvLog INFO (MsgAttempting url); EvGet url], 0%nat.
      cbn. repeat split; try reflexivity; try lia; discriminate.
Qed.

(** When the last of the attempts is the one whose body breaks off, its
    part of the body is what stays at the destination. *)
Lemma retry_loop_last_breaks url local_path retries r :
  breaks_off r = true ->
  opens env local_path = true ->
  disk_accepts env local_path ->
  forall n wait w,
    waits_accepted env wait (S n) = true ->
    (forall i, (i < n)%nat ->
       ends_in_network_error (opens env local_path)
         (net env url (get_count (trace w) + i)) = true) ->
    net env url (get_count (trace w) + n) = GetResponse r ->
    (retry_loop env url local_path retries (S n) wait w).1 = Ret false
    /\ fs (retry_loop env url local_path retries (S n) wait w).2 !! local_path
       = Some (join_chunks (chunks r)).
Proof.
  intros Hbr Hopen Hd n.
  induction n as [|n IH]; intros wait w Hw Hfail Hnet;
    apply waits_accepted_S in Hw as [Hs Hw];
    rewrite retry_loop_S; unfold try_except_request;
    destruct (attempt_cases url local_path w)
      as [(r1 & Hnet1 & Hc1 & _ & _ & E)
         | [(e & f & Herr & E & Hf) | (f & _ & _ & Hf)]].
  - rewrite Nat.add_0_r in Hnet. rewrite Hnet in Hnet1. injection Hnet1 as <-.
    rewrite (breaks_off_not_complete r Hbr) in Hc1. discriminate.
  - rewrite Nat.add_0_r in Hnet. rewrite E, (retry_handler_run _ _ _ _ _ Hs).
    cbn [retry_loop]. unfold bind, log, emit, ret. cbn [fst snd fs add_events].
    split; [reflexivity|].
    destruct Hf as [[Hearly _] | (r1 & Hnet1 & _ & _ & Hok & ->)].
    + rewrite Hnet, (breaks_off_not_early r Hbr) in Hearly. discriminate.
    + rewrite Hnet in Hnet1. injection Hnet1 as <-.
      apply disk_store_content, Hok.
  - exfalso. destruct Hf as [[Hop _] | (r1 & _ & _ & Hok & _)];
      [congruence|].
    rewrite (disk_store_accepted env local_path _ r1 (fs w) Hd) in Hok.
    discriminate.
  - pose proof (Hfail 0%nat ltac:(lia)) as H0. rewrite Nat.add_0_r, Hnet1 in H0.
    rewrite (complete_not_network_error _ r1 Hc1) in H0. discriminate.
  - rewrite E, (retry_handler_run _ _ _ _ _ Hs).
    match goal with |- context [retry_loop _ _ _ _ _ _ ?w1] =>
      apply (IH (wait * 2) w1)
    end.
    + exact Hw.
    + intros i Hi. cbn [trace add_events]. rewrite !get_count_app.
      cbn [get_count]. rewrite Nat.add_0_r.
      replace (get_count (trace w) + 1 + i)%nat
        with (get_count (trace w) + S i)%nat by lia.
      apply Hfail. lia.
    + cbn [trace add_events]. rewrite !get_count_app.
      cbn [get_count]. rewrite Nat.add_0_r.
      replace (get_count (trace w) + 1 + n)%nat
        with (get_count (trace w) + S n)%nat by lia.
      exact Hnet.
  - exfalso. destruct Hf as [[Hop _] | (r1 & _ & _ & Hok & _)];
      [congruence|].
    rewrite (disk_store_accepted env local_path _ r1 (fs w) Hd) in Hok.
    discriminate.
Qed.

Lemma slept_backoff_series t wait j :
  sleeps t = backoff_series wait j -> slept t = geometric_sum wait 2 j.
Proof.
  rewrite slept_sum. intros ->. revert wait; induction j as [|j IH]; intros wait;
    cbn [backoff_series geometric_sum fold_right]; [reflexivity|].
  rewrite IH. reflexivity.
Qed.

Lemma geometric_sum_nonneg a n : 0 <= a -> 0 <= geometric_sum a 2 n.
Proof.
  revert a; induction n as [|n IH]; intros a Ha; cbn [geometric_sum]; [lia|].
  specialize (IH (a * 2) ltac:(lia)). lia.
Qed.

Lemma geometric_sum_mono a j n :
  0 <= a -> (j <= n)%nat -> geometric_sum a 2 j <= geometric_sum a 2 n.
Proof.
  revert a n; induction j as [|j IH]; intros a n Ha Hjn; cbn [geometric_sum].
  - apply geometric_sum_nonneg, Ha.
  - destruct n as [|n]; [lia|]. cbn [geometric_sum].
    specialize (IH (a * 2) n ltac:(lia) ltac:(lia)). lia.
Qed.

(** With the waits of the defaults, [time.sleep] never refuses. *)
Lemma default_waits_accepted :
  waits_accepted env default_backoff (Z.to_nat default_retries) = true.
Proof. reflexivity. Qed.

End Retries.

(** ** The claims about [download_with_retries] *)

Section RetryClaims.
Context (env : environment) `{OsPath}.

(** C2.  For an endpoint whose every request fails,
    [download_with_retries] makes exactly [retries] requests (5 by
    default) and returns [False]; the waits it makes, one after each
    failed attempt, are [backoff], [2*backoff], [4*backoff], ... (from 10
    seconds by default), so the total time waited is the geometric sum
    [backoff * (2^retries - 1)].  The waits are taken to be durations
    that [time.sleep] accepts, as those of the defaults are, and the
    disk to take what an attempt writes before its body breaks off. *)
Theorem retry_ceiling url local_path retries backoff w :
  0 <= retries ->
  waits_accepted env backoff (Z.to_nat retries) = true ->
  disk_accepts env local_path ->
  (forall n,
     ends_in_network_error (opens env local_path) (net env url n) = true) ->
  exists w',
    download_with_retries env url local_path retries backoff w = (Ret false, w')
    /\ get_count (trace w') = (get_count (trace w) + Z.to_nat retries)%nat
    /\ sleeps (trace w')
       = (sleeps (trace w) ++ backoff_series backoff (Z.to_nat retries))%list
    /\ slept (trace w')
       = slept (trace w) + geometric_sum backoff 2 (Z.to_nat retries)
    /\ geometric_sum backoff 2 (Z.to_nat retries) = backoff * (2 ^ retries - 1)
    /\ (retries = default_retries -> backoff = default_backoff ->
        get_count (trace w') = (get_count (trace w) + 5)%nat
        /\ slept (trace w') = slept (trace w) + 310).
Proof.
  intros Hr Hw Hd Hfail. unfold download_with_retries.
  destruct (retry_loop_fails env url local_path retries Hfail (or_intror Hd)
              (Z.to_nat retries) backoff w Hw) as (f & E & _).
  eexists. split; [exact E|]. cbn [trace].
  assert (Hsum : geometric_sum backoff 2 (Z.to_nat retries)
                 = backoff * (2 ^ retries - 1)).
  { rewrite geometric_sum_closed, Z2Nat.id by lia. reflexivity. }
  assert (Hc : get_count
                 (trace w ++ failed_attempts url (Z.to_nat retries) backoff
                    ++ [EvLog ERROR (MsgFailedAfter url retries)])
               = (get_count (trace w) + Z.to_nat retries)%nat).
  { rewrite !get_count_app, get_count_failed_attempts. simpl. lia. }
  assert (Hs : slept
                 (trace w ++ failed_attempts url (Z.to_nat retries) backoff
                    ++ [EvLog ERROR (MsgFailedAfter url retries)])
               = slept (trace w) + geometric_sum backoff 2 (Z.to_nat retries)).
  { rewrite !slept_app, slept_failed_attempts. simpl. lia. }
  split; [exact Hc|]. split.
  { rewrite !sleeps_app, sleeps_failed_attempts. simpl.
    rewrite app_nil_r. reflexivity. }
  split; [exact Hs|]. split; [exact Hsum|].
  intros -> ->. rewrite Hc, Hs, Hsum. split; reflexivity.
Qed.

End RetryClaims.

(** ** One object: [download_warc_file] *)

Section Tasks.
Context (env : environment) `{OsPath}.

Lemma count_lines_app p t1 t2 :
  count_lines p (t1 ++ t2) = (count_lines p t1 + count_lines p t2)%nat.
Proof. unfold count_lines. rewrite List.filter_app, length_app. reflexivity. Qed.

Lemma present_file w p : is_Some (fs w !! p) -> present env w p = true.
Proof.
  intros Hp. unfold present. rewrite bool_decide_eq_true_2 by exact Hp.
  reflexivity.
Qed.

Lemma present_false w p :
  present env w p = false -> fs w !! p = None /\ is_dir env p = false.
Proof.
  unfold present. intros Hp. apply orb_false_iff in Hp as [Hf Hd].
  split; [|exact Hd].
  apply bool_decide_eq_false_1 in Hf.
  destruct (fs w !! p) eqn:E; [destruct Hf; eauto | reflexivity].
Qed.

Lemma present_same w w' p :
  fs w' !! p = fs w !! p -> present env w' p = present env w p.
Proof. unfold present. intros ->. reflexivity. Qed.

(** With a destination that can be written and waits that are taken, the
    retry loop always returns, and its log tells how it ended. *)
Lemma retry_loop_outcome url local_path retries :
  opens env local_path = true ->
  disk_accepts env local_path ->
  forall n wait w,
    waits_accepted env wait n = true ->
    exists b f evs,
      retry_loop env url local_path retries n wait w
      = (Ret b, {| fs := f; trace := (trace w ++ evs)%list |})
      /\ count_lines is_skipping_line evs = 0%nat
      /\ count_lines is_downloaded_line evs = (if b then 1 else 0)%nat
      /\ count_lines is_failed_line evs = (if b then 0 else 1)%nat.
Proof.
  intros Hopen Hd n. induction n as [|n IH]; intros wait w Hw.
  - exists false, (fs w), [EvLog ERROR (MsgFailedAfter url retries)].
    repeat split; reflexivity.
  - apply waits_accepted_S in Hw as [Hs Hw].
    rewrite retry_loop_S. unfold try_except_request.
    destruct (attempt_cases env url local_path w)
      as [(r & _ & _ & _ & _ & E)
         | [(e & f0 & _ & E & _) | (f0 & _ & _ & Hf0)]].
    + rewrite E. do 3 eexists. split; [reflexivity|].
      repeat split; reflexivity.
    + rewrite E, (retry_handler_run env _ _ _ _ _ Hs).
      match goal with |- context [retry_loop _ _ _ _ _ _ ?w1] =>
        destruct (IH (wait * 2) w1 Hw) as (b & f & evs & E' & Hsk & Hdl & Hfl)
      end.
      exists b, f,
        ([EvLog INFO (MsgAttempting url); EvGet url;
          EvLog WARNING (MsgRetrying url wait); EvSleep wait] ++ evs)%list.
      rewrite E'. cbn [trace add_events fs].
      rewrite <- ?app_assoc. split; [reflexivity|].
      rewrite !count_lines_app, Hsk, Hdl, Hfl. auto.
    + exfalso. destruct Hf0 as [[Hop _] | (r & _ & _ & Hok & _)];
        [congruence|].
      rewrite (disk_store_accepted env local_path _ r (fs w) Hd) in Hok.
      discriminate.
Qed.


Lemma download_with_retries_starts url local_path retries backoff w :
  0 < retries ->
  exists evs,
    trace (download_with_retries env url local_path retries backoff w).2
    = (trace w ++ [EvLog INFO (MsgAttempting url); EvGet url] ++ evs)%list.
Proof.
  intros Hr. unfold download_with_retries.
  destruct (Z.to_nat retries) as [|n] eqn:Hn; [lia|].
  rewrite retry_loop_S. unfold try_except_request.
  assert (G : grows any_event
                (log WARNING (MsgRetrying url backoff) ;; sleep env backoff ;;
                 retry_loop env url local_path retries n (backoff * 2))).
  { apply grows_bind; [apply grows_log; exact I | intros _].
    apply grows_bind; [apply grows_sleep; exact I | intros _].
    apply grows_retry_loop; intros; exact I. }
  destruct (attempt_cases env url local_path w)
    as [(r & _ & _ & _ & _ & E)
       | [(e & f & _ & E & _) | (f & _ & E & _)]];
    rewrite E.
  - eexists. cbn [snd trace]. reflexivity.
  - match goal with |- context [(_ ;; _) ?w1] =>
      destruct (G w1) as (e2 & E2 & _) end.
    exists e2. rewrite E2. cbn [trace]. rewrite <- app_assoc. reflexivity.
  - exists []. reflexivity.
Qed.

Lemma download_warc_file_skip folder path w :
  present env w (local_filename folder path) = true ->
  download_warc_file env folder path w
  = (Ret tt,
     add_events [EvLog INFO (MsgSkipping (local_filename folder path))] w).
Proof.
  intros Hex. unfold download_warc_file, bind, path_exists.
  unfold present in Hex. rewrite Hex. reflexivity.
Qed.

Lemma download_warc_file_fetch folder path w :
  present env w (local_filename folder path) = false ->
  download_warc_file env folder path w
  = (_ <- download_with_retries env (DOWNLOAD_URL ++ path)
            (local_filename folder path) default_retries default_backoff ;;
     ret tt) w.
Proof.
  intros Hno. unfold download_warc_file at 1, bind at 1, path_exists.
  unfold present in Hno. rewrite Hno. reflexivity.
Qed.

Lemma spec_fetch_one_skip folder path w :
  present env w (local_filename folder path) = true ->
  spec_fetch_one env folder path w
  = (Ret Skipped,
     add_events [EvLog INFO (MsgSkipping (local_filename folder path))] w).
Proof.
  intros Hex. unfold spec_fetch_one, bind, path_exists.
  unfold present in Hex. rewrite Hex. reflexivity.
Qed.

Lemma spec_fetch_one_fetch folder path w :
  present env w (local_filename folder path) = false ->
  spec_fetch_one env folder path w
  = (ok <- download_with_retries env (DOWNLOAD_URL ++ path)
             (local_filename folder path) default_retries default_backoff ;;
     ret (if ok then Succeeded else Failed)) w.
Proof.
  intros Hno. unfold spec_fetch_one at 1, bind at 1, path_exists.
  unfold present in Hno. rewrite Hno. reflexivity.
Qed.

Lemma bind_ret_tt_snd {A} (m : M A) w : ((_ <- m ;; ret tt) w).2 = (m w).2.
Proof. unfold bind, ret. destruct (m w) as [[a|e|c] w1]; reflexivity. Qed.

(** A task whose destination can be written returns; the code and the
    specification's [fetch_one] take the same steps, the code drops the
    outcome, which the log still tells. *)
Lemma task_outcome folder path w :
  writable env (local_filename folder path) ->
  exists s w' evs,
    spec_fetch_one env folder path w = (Ret s, w')
    /\ download_warc_file env folder path w = (Ret tt, w')
    /\ trace w' = (trace w ++ evs)%list
    /\ lines_of s evs
    /\ (present env w (local_filename folder path) = true ->
        s = Skipped
        /\ In (EvLog INFO (MsgSkipping (local_filename folder path))) evs)
    /\ (present env w (local_filename folder path) = false ->
        s <> Skipped /\ In (EvGet (DOWNLOAD_URL ++ path)) evs).
Proof.
  intros [Hopen Hd].
  destruct (present env w (local_filename folder path)) eqn:Hex.
  - rewrite spec_fetch_one_skip, download_warc_file_skip by exact Hex.
    exists Skipped. do 2 eexists. split; [reflexivity|].
    split; [reflexivity|]. split; [reflexivity|].
    split; [repeat split; reflexivity|].
    split; [intros _; split; [reflexivity | left; reflexivity]|].
    discriminate.
  - rewrite spec_fetch_one_fetch, download_warc_file_fetch by exact Hex.
    destruct (present_false w _ Hex) as [_ Hdir].
    assert (Hopens : opens env (local_filename folder path) = true)
      by (unfold opens; rewrite Hdir, Hopen; reflexivity).
    destruct (download_with_retries_starts (DOWNLOAD_URL ++ path)
                (local_filename folder path) default_retries default_backoff w
                ltac:(unfold default_retries; lia)) as (rest & Hstart).
    unfold bind, download_with_retries in *.
    destruct (retry_loop_outcome (DOWNLOAD_URL ++ path)
                (local_filename folder path) default_retries Hopens Hd
                (Z.to_nat default_retries) default_backoff w
                (default_waits_accepted env))
      as (b & f & evs & E & Hs & Hdl & Hf).
    rewrite E in Hstart |- *. cbn [snd trace] in Hstart.
    apply app_inv_head in Hstart.
    exists (if b then Succeeded else Failed). do 2 eexists.
    split; [reflexivity|]. split; [reflexivity|]. split; [reflexivity|].
    split; [unfold lines_of; rewrite Hs, Hdl, Hf;
            destruct b; repeat split; reflexivity|].
    split; [discriminate|]. intros _.
    split; [destruct b; discriminate|].
    rewrite Hstart. right; left; reflexivity.
Qed.

(** A task changes no file but its destination, and keeps whatever is
    there, its destination included. *)
Lemma download_warc_file_frame folder path w q :
  q <> local_filename folder path ->
  fs (download_warc_file env folder path w).2 !! q = fs w !! q.
Proof.
  intros Hq. destruct (present env w (local_filename folder path)) eqn:Hex.
  - rewrite download_warc_file_skip by exact Hex. reflexivity.
  - rewrite download_warc_file_fetch by exact Hex.
    rewrite bind_ret_tt_snd. apply retry_loop_frame, Hq.
Qed.

Lemma download_warc_file_keeps folder path w q d :
  fs w !! q = Some d ->
  fs (download_warc_file env folder path w).2 !! q = Some d.
Proof.
  intros Hd. destruct (decide (q = local_filename folder path)) as [->|Hq].
  - rewrite download_warc_file_skip by (apply present_file; rewrite Hd; eauto).
    exact Hd.
  - rewrite download_warc_file_frame by exact Hq. exact Hd.
Qed.

Lemma download_warc_file_keeps_present folder path w q :
  present env w q = true ->
  present env (download_warc_file env folder path w).2 q = true.
Proof.
  unfold present. intros Hp. apply orb_true_iff in Hp as [Hf | Hd].
  - apply bool_decide_eq_true_1 in Hf as [d Hd].
    rewrite (download_warc_file_keeps folder path w q d Hd).
    rewrite bool_decide_eq_true_2 by eauto. reflexivity.
  - rewrite Hd. apply orb_true_r.
Qed.

Lemma download_warc_file_bounds folder path w :
  exists evs,
    trace (download_warc_file env folder path w).2 = (trace w ++ evs)%list
    /\ (get_count evs <= 5)%nat
    /\ 0 <= slept evs <= 310.
Proof.
  destruct (present env w (local_filename folder path)) eqn:Hex.
  - rewrite download_warc_file_skip by exact Hex.
    eexists. split; [reflexivity|]. cbn. split; lia.
  - rewrite download_warc_file_fetch by exact Hex. rewrite bind_ret_tt_snd.
    unfold download_with_retries.
    change (Z.to_nat default_retries) with 5%nat.
    destruct (retry_loop_bounds env (DOWNLOAD_URL ++ path)
                (local_filename folder path) default_retries 5 default_backoff w)
      as (evs & j & T & Hle & _ & Hs & Hj & _).
    exists evs. split; [exact T|]. split; [exact Hle|].
    rewrite (slept_backoff_series evs default_backoff j Hs).
    split; [apply geometric_sum_nonneg; unfold default_backoff; lia|].
    transitivity (geometric_sum default_backoff 2 5).
    + apply geometric_sum_mono; [unfold default_backoff; lia | lia].
    + vm_compute. discriminate.
Qed.

(** The requests of one task go to the task's own URL. *)
Lemma grows_download_warc_file folder path :
  grows (gets_within (eq (DOWNLOAD_URL ++ path)))
    (download_warc_file env folder path).
Proof.
  unfold download_warc_file.
  apply grows_bind; [auto with grows | intros ex].
  destruct ex.
  - apply grows_bind; [|auto with grows].
    apply grows_log. intros u Hu; discriminate.
  - apply grows_bind; [apply grows_download_with_retries | auto with grows].
Qed.


End Tasks.

(** ** The batch: [executor.map] over the manifest *)

Section Pool.
Context (env : environment).

Lemma in_firstn {A} (n : nat) (l : list A) x : In x (firstn n l) -> In x l.
Proof.
  intros Hx. rewrite <- (firstn_skipn n l). apply in_or_app. left. exact Hx.
Qed.

Lemma unit_list (l : list unit) : l = repeat tt (length l).
Proof. induction l as [|[] l IH]; [reflexivity|]. cbn. rewrite <- IH. reflexivity. Qed.

(** What the pool leaves behind is what an initial segment of the calls
    leaves, run one after the other. *)
Lemma executor_map_prefix {A} (f : string -> M A) paths w :
  exists m,
    (executor_map env f paths w).2 = (run_unread f (firstn m paths) w).2.
Proof.
  revert w; induction paths as [|p ps IH]; intros w.
  - exists 0%nat. reflexivity.
  - cbn [executor_map].
    destruct (f p w) as [[a|e|c] w1] eqn:E.
    + destruct (IH w1) as (m & Hm). exists (S m).
      cbn [firstn run_unread]. rewrite E. cbn [snd]. rewrite <- Hm.
      destruct (executor_map env f ps w1) as [rs w2]. reflexivity.
    + exists (S (overrun env)). cbn [firstn run_unread]. rewrite E. reflexivity.
    + exists (S (overrun env)). cbn [firstn run_unread]. rewrite E. reflexivity.
Qed.

(** When every call returns, all of them are run and the results come
    back, one per call. *)
Lemma executor_map_returns {A} (f : string -> M A) paths :
  (forall p w, In p paths -> exists a, (f p w).1 = Ret a) ->
  forall w, exists rs,
    executor_map env f paths w = (Ret rs, (run_unread f paths w).2)
    /\ length rs = length paths.
Proof.
  induction paths as [|p ps IH]; intros Hret w.
  - exists []. split; reflexivity.
  - cbn [executor_map run_unread].
    destruct (Hret p w (or_introl eq_refl)) as (a & Ha).
    destruct (f p w) as [o w1]. cbn [fst snd] in *. subst o.
    destruct (IH (fun q w0 Hq => Hret q w0 (or_intror Hq)) w1) as (rs & E & Hlen).
    rewrite E. exists (a :: rs). split; [reflexivity|].
    cbn [length]. rewrite Hlen. reflexivity.
Qed.


End Pool.

Section Batch.
Context (env : environment) `{OsPath}.

Lemma fetch_batch_unfold folder paths w :
  fetch_batch env folder paths w
  = executor_map env (download_warc_file env folder) paths
      (add_events [EvLog INFO (MsgStarting (length paths))] w).
Proof. reflexivity. Qed.

(** The tasks one after the other.  They keep the files they find and
    create destinations of their entries only. *)
Lemma tasks_keep folder paths w q d :
  fs w !! q = Some d ->
  fs (run_unread (download_warc_file env folder) paths w).2 !! q = Some d.
Proof.
  revert w; induction paths as [|p ps IH]; intros w Hd; [exact Hd|].
  cbn [run_unread]. apply IH, download_warc_file_keeps, Hd.
Qed.

Lemma tasks_create_only_destinations folder paths w q :
  is_Some (fs (run_unread (download_warc_file env folder) paths w).2 !! q) ->
  is_Some (fs w !! q) \/ exists p, In p paths /\ q = local_filename folder p.
Proof.
  revert w; induction paths as [|p ps IH]; intros w Hq; [left; exact Hq|].
  cbn [run_unread] in Hq.
  destruct (IH _ Hq) as [Hq1 | (p' & Hin & ->)].
  - destruct (decide (q = local_filename folder p)) as [->|Hne].
    + right. exists p. split; [left; reflexivity | reflexivity].
    + left. rewrite download_warc_file_frame in Hq1 by exact Hne. exact Hq1.
  - right. exists p'. split; [right; exact Hin | reflexivity].
Qed.

Lemma tasks_bounds folder paths w :
  exists evs,
    trace (run_unread (download_warc_file env folder) paths w).2
    = (trace w ++ evs)%list
    /\ (get_count evs <= 5 * length paths)%nat
    /\ 0 <= slept evs <= 310 * Z.of_nat (length paths).
Proof.
  revert w; induction paths as [|p ps IH]; intros w.
  - exists []. cbn. rewrite app_nil_r. split; [reflexivity|]. split; lia.
  - cbn [run_unread].
    destruct (download_warc_file_bounds env folder p w) as (e1 & T1 & G1 & S1).
    destruct (IH (download_warc_file env folder p w).2) as (e2 & T2 & G2 & S2).
    exists (e1 ++ e2)%list. rewrite T2, T1, <- app_assoc.
    split; [reflexivity|].
    rewrite get_count_app, slept_app. cbn [length].
    split; [lia|]. lia.
Qed.

(** Tasks whose destinations can be written all return.  Each leaves one
    of the three lines in the log; an entry whose destination is there
    when the batch starts is skipped; with destinations that differ from
    entry to entry, an entry whose destination is missing is requested,
    and only the entries found at the start are skipped. *)
Lemma tasks_outcome folder paths :
  (forall p, In p paths -> writable env (local_filename folder p)) ->
  forall w, exists evs,
    trace (run_unread (download_warc_file env folder) paths w).2
    = (trace w ++ evs)%list
    /\ (count_lines is_skipping_line evs + count_lines is_downloaded_line evs
        + count_lines is_failed_line evs)%nat = length paths
    /\ (forall p, In p paths ->
          present env w (local_filename folder p) = true ->
          In (EvLog INFO (MsgSkipping (local_filename folder p))) evs)
    /\ (List.NoDup (map (local_filename folder) paths) ->
        (forall p, In p paths ->
           present env w (local_filename folder p) = false ->
           In (EvGet (DOWNLOAD_URL ++ p)) evs)
        /\ count_lines is_skipping_line evs
           = length (List.filter
                       (fun p => present env w (local_filename folder p)) paths)).
Proof.
  induction paths as [|p0 ps IH]; intros Hw w.
  - exists []. cbn. rewrite app_nil_r. split; [reflexivity|].
    split; [reflexivity|]. split; [intros p []|].
    intros _. split; [intros p [] | reflexivity].
  - destruct (task_outcome env folder p0 w (Hw p0 (or_introl eq_refl)))
      as (s & w1 & e1 & _ & E1 & T1 & (L1 & L2 & L3) & Hpres & Habs).
    assert (Hw1 : w1 = (download_warc_file env folder p0 w).2)
      by (rewrite E1; reflexivity).
    destruct (IH (fun q Hq => Hw q (or_intror Hq)) w1)
      as (e2 & T2 & Hsum & Ha & Hb).
    exists (e1 ++ e2)%list. cbn [run_unread]. rewrite <- Hw1.
    split; [rewrite T2, T1, app_assoc; reflexivity|].
    split.
    { rewrite !count_lines_app, L1, L2, L3. cbn [length].
      destruct s; cbn [is_status]; lia. }
    split.
    { intros p [<- | Hin] Hp; apply in_or_app.
      - left. apply Hpres, Hp.
      - right. apply (Ha p Hin). rewrite Hw1.
        apply download_warc_file_keeps_present, Hp. }
    intros Hnd. cbn [map] in Hnd. apply List.NoDup_cons_iff in Hnd as [Hnew Hnd].
    destruct (Hb Hnd) as (Hget & Hskip).
    assert (Hsame : forall p, In p ps ->
               present env w1 (local_filename folder p)
               = present env w (local_filename folder p)).
    { intros p Hin. apply present_same. rewrite Hw1.
      apply download_warc_file_frame. intros Heq. apply Hnew.
      rewrite <- Heq. apply in_map, Hin. }
    split.
    { intros p [<- | Hin] Hp; apply in_or_app.
      - left. apply Habs, Hp.
      - right. apply (Hget p Hin). rewrite Hsame by exact Hin. exact Hp. }
    rewrite count_lines_app, L1, Hskip. cbn [List.filter].
    rewrite (List.filter_ext_in _ _ ps Hsame).
    destruct (present env w (local_filename folder p0)) eqn:Hp0.
    + destruct (Hpres eq_refl) as [-> _]. reflexivity.
    + destruct (Habs eq_refl) as [Hs _]. destruct s; [congruence | |]; reflexivity.
Qed.

Lemma tasks_return folder paths :
  (forall p, In p paths -> writable env (local_filename folder p)) ->
  forall w,
    executor_map env (download_warc_file env folder) paths w
    = (Ret (repeat tt (length paths)),
       (run_unread (download_warc_file env folder) paths w).2).
Proof.
  intros Hw w.
  destruct (executor_map_returns env (download_warc_file env folder) paths)
    with (w := w) as (rs & E & Hlen).
  { intros p w0 Hp.
    destruct (task_outcome env folder p w0 (Hw p Hp))
      as (s & w1 & e1 & _ & E1 & _).
    exists tt. rewrite E1. reflexivity. }
  rewrite E, (unit_list rs), Hlen. reflexivity.
Qed.

(** A batch whose destinations all exist only logs. *)
Lemma tasks_all_skipped folder paths w :
  (forall p, In p paths -> is_Some (fs w !! local_filename folder p)) ->
  executor_map env (download_warc_file env folder) paths w
  = (Ret (repeat tt (length paths)),
     add_events
       (map (fun p => EvLog INFO (MsgSkipping (local_filename folder p))) paths)
       w).
Proof.
  revert w; induction paths as [|p ps IH]; intros w Hex.
  - cbn. unfold ret. rewrite add_events_nil. reflexivity.
  - cbn [executor_map].
    rewrite download_warc_file_skip
      by (apply present_file, Hex; left; reflexivity).
    rewrite IH by (intros q Hq; apply Hex; right; exact Hq).
    rewrite add_events_add_events. reflexivity.
Qed.

Lemma get_count_skip_lines folder paths :
  get_count
    (map (fun p => EvLog INFO (MsgSkipping (local_filename folder p))) paths)
  = 0%nat.
Proof. induction paths as [|p ps IH]; simpl; auto. Qed.

Lemma grows_fetch_batch folder paths :
  grows (gets_within (fun u => exists p, In p paths /\ u = DOWNLOAD_URL ++ p))
    (fetch_batch env folder paths).
Proof.
  unfold fetch_batch.
  apply grows_bind; [apply grows_log; intros u Hu; discriminate | intros _].
  apply grows_executor_map. intros p Hp.
  eapply grows_weaken; [|apply grows_download_warc_file].
  intros e He u Hu. exists p. split; [exact Hp | symmetry; exact (He u Hu)].
Qed.


End Batch.

(** ** The claims about single objects and the batch *)

Section ObjectClaims.
Context (env : environment) `{OsPath}.

(** C1, as the code has it.  A fetch attempt that fails before the body
    is streamed (the connection fails or times out, or the status is 4xx
    or 5xx) leaves the file system as it was.  So when the destination
    does not exist and every attempt fails in that way,
    [download_with_retries] leaves no file at the destination however it
    ends; it returns [False] when its waits are durations that
    [time.sleep] accepts, and a later invocation requests the object
    again instead of skipping it.  (An attempt that fails while the body
    is streamed has already created the destination file; nothing
    removes it.) *)
Theorem failure_before_body_leaves_no_file url local_path retries backoff w :
  (forall n, fails_before_body (net env url n) = true) ->
  fs w !! local_path = None ->
  (exists e,
     attempt env url local_path w
     = (Raise (RequestException e),
        add_events [EvLog INFO (MsgAttempting url); EvGet url] w))
  /\ fs (download_with_retries env url local_path retries backoff w).2 = fs w
  /\ (waits_accepted env backoff (Z.to_nat retries) = true ->
      exists w',
        download_with_retries env url local_path retries backoff w
        = (Ret false, w')
        /\ fs w' = fs w
        /\ fs w' !! local_path = None)
  /\ (is_dir env local_path = false ->
      forall folder path w2,
        fs w2 = fs w ->
        local_filename folder path = local_path ->
        (DOWNLOAD_URL ++ path)%string = url ->
        get_count (trace (download_warc_file env folder path w2).2)
        = (get_count (trace w2) + 5)%nat).
Proof.
  intros Hall Hno.
  assert (Hfail : forall n,
             ends_in_network_error (opens env local_path) (net env url n)
             = true)
    by (intros n; apply fails_before_body_network_error, Hall).
  split.
  { rewrite attempt_unfold. cbv zeta.
    pose proof (Hall (get_count (trace w))) as Hf.
    destruct (net env url (get_count (trace w))) as [e|r]; cbn in Hf.
    - exists e. reflexivity.
    - rewrite Hf. exists HTTPError. reflexivity. }
  split; [apply retry_loop_early_fs, Hall|].
  split.
  - intros Hw. unfold download_with_retries.
    destruct (retry_loop_fails env url local_path retries Hfail (or_introl Hall)
                (Z.to_nat retries) backoff w Hw) as (f & E & Hfs).
    specialize (Hfs Hall). subst f.
    eexists. split; [exact E|]. cbn [fs].
    split; [reflexivity | exact Hno].
  - intros Hdir folder path w2 Hw2 Hlocal Hurl.
    rewrite download_warc_file_fetch
      by (unfold present; rewrite Hlocal, Hw2, Hno, Hdir;
          rewrite bool_decide_eq_false_2 by (intros [x Hx]; discriminate);
          reflexivity).
    unfold bind, download_with_retries. rewrite Hlocal, Hurl.
    destruct (retry_loop_fails env url local_path default_retries Hfail
                (or_introl Hall) (Z.to_nat default_retries) default_backoff w2
                (default_waits_accepted env))
      as (f2 & E2 & _).
    rewrite E2. unfold ret. cbn [snd trace].
    rewrite !get_count_app, get_count_failed_attempts. simpl. lia.
Qed.

(** C3, as the code has it.  When the destination file of a remote path
    exists, [download_warc_file] logs that it skips the path and returns
    (the value is [None]) without any request and without touching the
    files.  Consequently a batch over entries whose destination files
    all exist, as a second run finds them when the first run left a file
    for every entry, makes no request and leaves the files as they are. *)
Theorem existing_destinations_are_skipped folder :
  (forall path w,
     is_Some (fs w !! local_filename folder path) ->
     exists w',
       download_warc_file env folder path w = (Ret tt, w')
       /\ trace w'
          = (trace w ++ [EvLog INFO (MsgSkipping (local_filename folder path))])%list
       /\ get_count (trace w') = get_count (trace w)
       /\ fs w' = fs w)
  /\ (forall paths w,
        (forall p, In p paths -> is_Some (fs w !! local_filename folder p)) ->
        exists w',
          fetch_batch env folder paths w = (Ret (repeat tt (length paths)), w')
          /\ get_count (trace w') = get_count (trace w)
          /\ fs w' = fs w).
Proof.
  split.
  - intros path w Hex.
    rewrite download_warc_file_skip by (apply present_file, Hex).
    eexists. split; [reflexivity|]. cbn [trace add_events fs].
    rewrite get_count_app. simpl. split; [reflexivity|]. split; [lia | reflexivity].
  - intros paths w Hex. rewrite fetch_batch_unfold.
    rewrite tasks_all_skipped by exact Hex.
    eexists. split; [reflexivity|]. cbn [trace add_events fs].
    rewrite !get_count_app, get_count_skip_lines. simpl.
    split; [lia | reflexivity].
Qed.



End ObjectClaims.

(** ** The script as a whole *)

Section Script.
Context (env : environment) `{OsPath}.

Lemma grows_any {A} (P : event -> Prop) (m : M A) : grows P m -> grows any_event m.
Proof. apply grows_weaken. intros e _. exact I. Qed.

Lemma year_month_rejected_spec s :
  year_month_rejected s = Ret (negb (well_formed_period s)).
Proof.
  unfold year_month_rejected, well_formed_period, str_index.
  destruct s as [|c0 s]; [reflexivity|]. cbn [str_truthy negb].
  destruct (Nat.eqb (String.length (String c0 s)) 7) eqn:Hlen; [|reflexivity].
  apply Nat.eqb_eq in Hlen.
  destruct s as [|c1 [|c2 [|c3 [|c4 s]]]]; try discriminate Hlen.
  reflexivity.
Qed.

Lemma well_formed_period_iff s :
  well_formed_period s = true
  <-> String.length s = 7%nat /\ String.get 4 s = Some "/"%char.
Proof.
  unfold well_formed_period. rewrite andb_true_iff, Nat.eqb_eq.
  destruct (String.get 4 s) as [c|].
  - rewrite Ascii.eqb_eq. split; intros [? ?]; split; congruence.
  - split; intros [? ?]; discriminate.
Qed.

Lemma main_unfold a w :
  main env a w
  = if well_formed_period (year_month a) then run env a w
    else (Exit 1, add_events [EvLog ERROR MsgInvalidYearMonth] w).
Proof.
  unfold main, bind at 1, lift. rewrite year_month_rejected_spec.
  destruct (well_formed_period (year_month a)); reflexivity.
Qed.

Lemma in_slice_to {A} (k : Z) (l : list A) x : In x (slice_to k l) -> In x l.
Proof. unfold slice_to. destruct (k <? 0); apply in_firstn. Qed.

Lemma limit_paths_run a file_paths w :
  exists evs,
    limit_paths a file_paths w
    = (Ret (if int_truthy (max_files a)
            then slice_to (default 0 (max_files a)) file_paths
            else file_paths),
       add_events evs w)
    /\ Forall (gets_within (fun _ => False)) evs.
Proof.
  unfold limit_paths. destruct (int_truthy (max_files a)).
  - eexists. split; [reflexivity|].
    constructor; [intros u Hu; discriminate | constructor].
  - exists []. unfold ret. rewrite add_events_nil. split; [reflexivity|constructor].
Qed.

Lemma grows_limit_paths a file_paths : grows any_event (limit_paths a file_paths).
Proof.
  intros w. destruct (limit_paths_run a file_paths w) as (evs & E & _).
  exists evs. rewrite E. split; [reflexivity|].
  apply Forall_forall. intros; exact I.
Qed.

Lemma grows_fetch_manifest a : grows any_event (fetch_manifest env a).
Proof.
  unfold fetch_manifest.
  apply grows_bind; [auto with grows | intros ex].
  apply grows_bind.
  - destruct (negb ex); [|auto with grows].
    apply grows_bind; [eapply grows_any, grows_download_with_retries | intros ok].
    destruct (negb ok); [|auto with grows].
    apply grows_bind; [apply grows_log; exact I | auto with grows].
  - intros _. apply grows_bind; [apply grows_log; exact I | intros _].
    apply grows_bind; auto with grows.
Qed.

Lemma grows_cleanup_gets U a : grows (gets_within U) (cleanup env a).
Proof.
  unfold cleanup.
  apply grows_bind; [apply grows_log; intros u Hu; discriminate | intros _].
  apply grows_bind; [auto with grows | intros ex].
  apply grows_bind; [destruct ex; auto with grows | intros _].
  apply grows_log; intros u Hu; discriminate.
Qed.

Lemma grows_cleanup a : grows any_event (cleanup env a).
Proof. eapply grows_any, (grows_cleanup_gets (fun _ => False)). Qed.

(** Past the validation, the first thing the script does is to create
    the download folder. *)
Lemma run_starts a w :
  exists evs,
    trace (run env a w).2
    = (trace w ++ EvMakedirs (DOWNLOAD_FOLDER a) :: evs)%list.
Proof.
  assert (G : grows any_event
                (_ <- (file_paths <- fetch_manifest env a ;;
                       file_paths <- limit_paths a file_paths ;;
                       fetch_batch env (DOWNLOAD_FOLDER a) file_paths) ;;
                 cleanup env a)).
  { apply grows_bind; [|intros _; apply grows_cleanup].
    apply grows_bind; [apply grows_fetch_manifest | intros fp].
    apply grows_bind; [apply grows_limit_paths | intros fp'].
    eapply grows_any, grows_fetch_batch. }
  destruct (G (add_events [EvMakedirs (DOWNLOAD_FOLDER a)] w)) as (evs & E & _).
  exists evs.
  change (run env a w)
    with ((_ <- (file_paths <- fetch_manifest env a ;;
                 file_paths <- limit_paths a file_paths ;;
                 fetch_batch env (DOWNLOAD_FOLDER a) file_paths) ;;
           cleanup env a) (add_events [EvMakedirs (DOWNLOAD_FOLDER a)] w)).
  rewrite E. cbn [trace add_events]. rewrite <- app_assoc. reflexivity.
Qed.

(** The end of the script, from any state the batch may leave: the
    manifest is removed, unless [os.remove] refuses. *)
Lemma cleanup_run a w :
  removable env (warc_paths_local a) ->
  cleanup env a w
  = (Ret tt,
     {| fs := delete (warc_paths_local a) (fs w);
        trace := (trace w ++ [EvLog INFO MsgCleaningUp; EvLog INFO MsgAllDone])%list |}).
Proof.
  intros [Hdir Hrm]. unfold cleanup, bind, log, emit, path_exists, remove, ret.
  cbn [fs trace add_events set_fs]. rewrite Hdir, Hrm, orb_false_r.
  cbn [negb orb].
  destruct (fs w !! warc_paths_local a) as [d|] eqn:Hfs.
  - rewrite bool_decide_eq_true_2 by eauto.
    unfold add_events, set_fs; cbn [fs trace]. rewrite Hfs.
    cbn [fs trace]. rewrite <- ?app_assoc. reflexivity.
  - rewrite bool_decide_eq_false_2 by (intros [x Hx]; discriminate).
    unfold add_events, set_fs; cbn [fs trace].
    rewrite <- ?app_assoc, delete_id by exact Hfs. reflexivity.
Qed.

(** When the cleanup returns, the manifest is neither a file nor a
    directory of the download folder any more. *)
Lemma cleanup_returns a w w' :
  cleanup env a w = (Ret tt, w') ->
  fs w' = delete (warc_paths_local a) (fs w)
  /\ is_dir env (warc_paths_local a) = false.
Proof.
  unfold cleanup, bind, log, emit, path_exists, remove, ret.
  cbn [fs trace add_events set_fs].
  destruct (is_dir env (warc_paths_local a)) eqn:Hdir.
  - rewrite orb_true_r. cbn [orb]. discriminate.
  - rewrite orb_false_r. cbn [orb].
    destruct (fs w !! warc_paths_local a) as [d|] eqn:Hfs.
    + rewrite bool_decide_eq_true_2 by eauto.
      destruct (negb (can_remove env (warc_paths_local a))); [discriminate|].
      unfold add_events, set_fs; cbn [fs trace]. rewrite Hfs.
      cbn [fs trace]. intros [= <-]. split; reflexivity.
    + rewrite bool_decide_eq_false_2 by (intros [x Hx]; discriminate).
      unfold add_events, set_fs; cbn [fs trace].
      intros [= <-]. cbn [fs]. rewrite delete_id by exact Hfs.
      split; reflexivity.
Qed.

Lemma run_after_batch a w rs w2 :
  removable env (warc_paths_local a) ->
  download_all env a w = (Ret rs, w2) ->
  run env a w
  = (Ret tt,
     {| fs := delete (warc_paths_local a) (fs w2);
        trace := (trace w2 ++ [EvLog INFO MsgCleaningUp; EvLog INFO MsgAllDone])%list |}).
Proof.
  intros Hrm E. unfold run, bind. rewrite E. apply cleanup_run, Hrm.
Qed.

(** The manifest, when it is not in the download folder. *)
Lemma fetch_manifest_failed a w w2 :
  present env w (warc_paths_local a) = false ->
  download_with_retries env (BASE_URL ++ WARC_PATHS_FILE a) (warc_paths_local a)
    default_retries default_backoff w = (Ret false, w2) ->
  fetch_manifest env a w
  = (Exit 1, add_events [EvLog ERROR MsgManifestFailed] w2).
Proof.
  intros Hno Hd. unfold fetch_manifest, bind, path_exists.
  unfold present in Hno. rewrite Hno.
  cbn [negb]. rewrite Hd. reflexivity.
Qed.

Lemma fetch_manifest_fetched a w w2 data lines :
  present env w (warc_paths_local a) = false ->
  download_with_retries env (BASE_URL ++ WARC_PATHS_FILE a) (warc_paths_local a)
    default_retries default_backoff w = (Ret true, w2) ->
  fs w2 !! warc_paths_local a = Some data ->
  gunzip_lines env data = Some lines ->
  fetch_manifest env a w
  = (Ret (map strip lines),
     add_events [EvLog INFO (MsgExtracting (warc_paths_local a))] w2).
Proof.
  intros Hno Hd Hdata Hgz. unfold fetch_manifest, bind, path_exists.
  unfold present in Hno. rewrite Hno.
  cbn [negb]. rewrite Hd. cbn [negb].
  unfold ret, log, emit, gzip_read_lines. cbn [fs add_events].
  rewrite Hdata, Hgz. reflexivity.
Qed.

Lemma fetch_manifest_local a w data :
  fs w !! warc_paths_local a = Some data ->
  fetch_manifest env a w
  = match gunzip_lines env data with
    | Some lines =>
        (Ret (map strip lines),
         add_events [EvLog INFO (MsgExtracting (warc_paths_local a))] w)
    | None =>
        (Raise BadGzipFile,
         add_events [EvLog INFO (MsgExtracting (warc_paths_local a))] w)
    end.
Proof.
  intros Hdata. unfold fetch_manifest, bind, path_exists.
  rewrite bool_decide_eq_true_2 by (rewrite Hdata; eauto).
  cbn [negb orb]. unfold ret, log, emit, gzip_read_lines. cbn [fs add_events].
  rewrite Hdata. destruct (gunzip_lines env data); reflexivity.
Qed.

(** A manifest that was read is a file of the download folder. *)
Lemma fetch_manifest_returns a w file_paths w1 :
  fetch_manifest env a w = (Ret file_paths, w1) ->
  is_Some (fs w1 !! warc_paths_local a).
Proof.
  unfold fetch_manifest. unfold bind at 1, path_exists. unfold bind at 1.
  match goal with |- context [match ?m with _ => _ end] =>
    destruct m as [[[]|e|c] wa] end; try discriminate.
  unfold bind, log, emit, gzip_read_lines, ret. cbn [fs add_events].
  destruct (fs wa !! warc_paths_local a) as [data|] eqn:Hfs; [|discriminate].
  destruct (gunzip_lines env data); [|discriminate].
  intros [= _ <-]. unfold add_events. cbn [fs]. rewrite Hfs. eauto.
Qed.

(** Past the manifest, the script is the batch over the selected
    entries. *)
Lemma download_all_after_manifest a w file_paths w1 :
  fetch_manifest env a (add_events [EvMakedirs (DOWNLOAD_FOLDER a)] w)
  = (Ret file_paths, w1) ->
  exists sel evs,
    download_all env a w
    = fetch_batch env (DOWNLOAD_FOLDER a) sel (add_events evs w1)
    /\ (forall p, In p sel -> In p file_paths).
Proof.
  intros Hm. unfold download_all, bind at 1, makedirs, emit.
  unfold bind at 1. rewrite Hm. unfold bind at 1.
  destruct (limit_paths_run a file_paths w1) as (evs & -> & _).
  do 2 eexists. split; [reflexivity|].
  intros p Hp. destruct (int_truthy (max_files a)); [eapply in_slice_to|]; exact Hp.
Qed.

(** With the manifest at hand and destinations that can be written, the
    batch runs to its end whatever the network does. *)
Lemma download_all_returns a w file_paths w1 :
  fetch_manifest env a (add_events [EvMakedirs (DOWNLOAD_FOLDER a)] w)
  = (Ret file_paths, w1) ->
  (forall p, In p file_paths ->
     writable env (local_filename (DOWNLOAD_FOLDER a) p)) ->
  exists rs w2, download_all env a w = (Ret rs, w2).
Proof.
  intros Hm Hw.
  destruct (download_all_after_manifest a w file_paths w1 Hm)
    as (sel & evs & -> & Hsel).
  rewrite fetch_batch_unfold, tasks_return by (intros p Hp; apply Hw, Hsel, Hp).
  eauto.
Qed.

(** The batch keeps the files it finds, however it ends. *)
Lemma fetch_batch_keeps folder paths w q d :
  fs w !! q = Some d ->
  fs (fetch_batch env folder paths w).2 !! q = Some d.
Proof.
  intros Hd. rewrite fetch_batch_unfold.
  destruct (executor_map_prefix env (download_warc_file env folder) paths
              (add_events [EvLog INFO (MsgStarting (length paths))] w))
    as (m & ->).
  apply tasks_keep. exact Hd.
Qed.

End Script.

(** ** The claims about the script *)

Section ScriptClaims.
Context (env : environment) `{OsPath}.

(** C5, as the code has it.  With [--max-files k] and [0 < k < N] for a
    manifest of [N] entries, the list is cut to its first [k] entries,
    in manifest order, before anything is fetched (the cut only logs);
    the batch then runs over these, and every request of the batch is
    for one of them.  When their destinations can be opened and written,
    so that no task ends on an exception, each of them is taken up: an
    entry whose destination is there is skipped, and, the destinations
    differing from entry to entry, an entry whose destination is missing
    is requested. *)
Theorem truncation_to_first_k a file_paths k folder :
  max_files a = Some k ->
  0 < k < Z.of_nat (length file_paths) ->
  let first_k := firstn (Z.to_nat k) file_paths in
  (forall w,
     limit_paths a file_paths w
     = (Ret first_k, add_events [EvLog INFO (MsgLimited k)] w))
  /\ length first_k = Z.to_nat k
  /\ (forall i, (i < Z.to_nat k)%nat ->
        nth_error first_k i = nth_error file_paths i)
  /\ (forall w, exists evs,
        trace (fetch_batch env folder first_k w).2 = (trace w ++ evs)%list
        /\ (forall u, In (EvGet u) evs ->
              exists p, In p first_k /\ u = (DOWNLOAD_URL ++ p)%string)
        /\ ((forall p, In p first_k ->
               writable env (local_filename folder p)) ->
            (forall p, In p first_k ->
               present env w (local_filename folder p) = true ->
               In (EvLog INFO (MsgSkipping (local_filename folder p))) evs)
            /\ (List.NoDup (map (local_filename folder) first_k) ->
                forall p, In p first_k ->
                  present env w (local_filename folder p) = false ->
                  In (EvGet (DOWNLOAD_URL ++ p)) evs)))
  /\ (forall w w1,
        fetch_manifest env a (add_events [EvMakedirs (DOWNLOAD_FOLDER a)] w)
        = (Ret file_paths, w1) ->
        download_all env a w
        = fetch_batch env (DOWNLOAD_FOLDER a) first_k
            (add_events [EvLog INFO (MsgLimited k)] w1)).
Proof.
  intros Hk Hrange first_k.
  assert (Hlimit : forall w,
             limit_paths a file_paths w
             = (Ret first_k, add_events [EvLog INFO (MsgLimited k)] w)).
  { intros w. unfold limit_paths, slice_to. rewrite Hk.
    cbv [int_truthy default from_option id].
    replace (k =? 0) with false by lia. cbn [negb].
    replace (k <? 0) with false by lia. reflexivity. }
  split; [exact Hlimit|]. split.
  { subst first_k. rewrite length_firstn. lia. }
  split.
  { intros i Hi. subst first_k. rewrite nth_error_firstn.
    destruct (Nat.ltb_spec i (Z.to_nat k)); [reflexivity | lia]. }
  split.
  - intros w.
    destruct (grows_fetch_batch env folder first_k w) as (evs & E & F).
    exists evs. split; [exact E|]. split.
    + intros u Hu. rewrite Forall_forall in F.
      apply (F (EvGet u)); [apply list_elem_of_In; exact Hu | reflexivity].
    + intros Hw.
      rewrite fetch_batch_unfold, (tasks_return env folder first_k Hw) in E.
      destruct (tasks_outcome env folder first_k Hw
                  (add_events [EvLog INFO (MsgStarting (length first_k))] w))
        as (evs' & E' & _ & Hskip & Hnd).
      cbn [snd] in E. rewrite E' in E. cbn [trace add_events] in E.
      rewrite <- app_assoc in E. apply app_inv_head in E. subst evs.
      split.
      * intros p Hp Hpres. right. exact (Hskip p Hp Hpres).
      * intros Hd p Hp Habs. right.
        destruct (Hnd Hd) as [Hget _]. exact (Hget p Hp Habs).
  - intros w w1 Hm. unfold download_all, bind at 1, makedirs, emit.
    unfold bind at 1. rewrite Hm. unfold bind. rewrite Hlimit. reflexivity.
Qed.

(** C7.  The script goes on past the validation exactly when the period
    argument has length 7 and the character [/] at index 4.  Otherwise
    it logs one error line and exits with status 1, having made no
    request and touched no file; when it goes on, its first action is to
    create the download folder. *)
Theorem period_validation a w :
  (well_formed_period (year_month a) = true
   <-> String.length (year_month a) = 7%nat
       /\ String.get 4 (year_month a) = Some "/"%char)
  /\ year_month_rejected (year_month a)
     = Ret (negb (well_formed_period (year_month a)))
  /\ main env a w
     = (if well_formed_period (year_month a) then run env a w
        else (Exit 1, add_events [EvLog ERROR MsgInvalidYearMonth] w))
  /\ exit_status (@Exit unit 1) <> 0
  /\ exists evs,
       trace (run env a w).2
       = (trace w ++ EvMakedirs (DOWNLOAD_FOLDER a) :: evs)%list.
Proof.
  split; [apply well_formed_period_iff|].
  split; [apply year_month_rejected_spec|].
  split; [apply main_unfold|].
  split; [discriminate | apply run_starts].
Qed.


(** C8, as the code has it.  When the manifest is not in the download
    folder and its fetch has used up its retries, the script logs the
    failure and exits with status 1 at once: up to then it has only
    requested the manifest, and nothing follows.  When the fetch of the
    manifest succeeds, the manifest decodes, the destinations can be
    opened and written and the manifest file can be removed, the script
    ends with status 0 whatever the network does for the objects, also
    when objects fail for good. *)
Theorem manifest_failure_is_fatal a w w2 :
  well_formed_period (year_month a) = true ->
  present env w (warc_paths_local a) = false ->
  let manifest_url := (BASE_URL ++ WARC_PATHS_FILE a)%string in
  let manifest_fetch :=
    download_with_retries env manifest_url (warc_paths_local a)
      default_retries default_backoff
      (add_events [EvMakedirs (DOWNLOAD_FOLDER a)] w) in
  (manifest_fetch = (Ret false, w2) ->
   main env a w = (Exit 1, add_events [EvLog ERROR MsgManifestFailed] w2)
   /\ exit_status (main env a w).1 = 1
   /\ exists evs,
        trace w2 = (trace w ++ EvMakedirs (DOWNLOAD_FOLDER a) :: evs)%list
        /\ forall u, In (EvGet u) evs -> u = manifest_url)
  /\ (forall data lines,
        manifest_fetch = (Ret true, w2) ->
        fs w2 !! warc_paths_local a = Some data ->
        gunzip_lines env data = Some lines ->
        (forall p, In p (map strip lines) ->
           writable env (local_filename (DOWNLOAD_FOLDER a) p)) ->
        can_remove env (warc_paths_local a) = true ->
        exists w',
          main env a w = (Ret tt, w') /\ exit_status (main env a w).1 = 0).
Proof.
  intros Hwf Hno manifest_url manifest_fetch.
  assert (Hno' : present env (add_events [EvMakedirs (DOWNLOAD_FOLDER a)] w)
                   (warc_paths_local a) = false) by exact Hno.
  split.
  - intros Hd.
    assert (Hmain : main env a w
                    = (Exit 1, add_events [EvLog ERROR MsgManifestFailed] w2)).
    { rewrite main_unfold, Hwf. unfold run, bind at 1, download_all, bind at 1.
      unfold makedirs, emit. unfold bind at 1.
      rewrite (fetch_manifest_failed env a
                 (add_events [EvMakedirs (DOWNLOAD_FOLDER a)] w) w2 Hno' Hd).
      reflexivity. }
    split; [exact Hmain|]. split; [rewrite Hmain; reflexivity|].
    destruct (grows_download_with_retries env manifest_url (warc_paths_local a)
                default_retries default_backoff
                (add_events [EvMakedirs (DOWNLOAD_FOLDER a)] w))
      as (evs & E & F).
    fold manifest_fetch in E. rewrite Hd in E. cbn [snd trace add_events] in E.
    exists evs. split; [rewrite E, <- app_assoc; reflexivity|].
    intros u Hu. rewrite Forall_forall in F. symmetry.
    apply (F (EvGet u)); [apply list_elem_of_In; exact Hu | reflexivity].
  - intros data lines Hd Hdata Hgz Hw Hrm.
    pose proof (fetch_manifest_fetched env a
                  (add_events [EvMakedirs (DOWNLOAD_FOLDER a)] w) w2 data lines
                  Hno' Hd Hdata Hgz) as Hm.
    destruct (download_all_returns env a w _ _ Hm Hw) as (rs & w3 & Hall).
    destruct (present_false env w _ Hno) as [_ Hdir].
    rewrite main_unfold, Hwf,
      (run_after_batch env a w rs w3 (conj Hdir Hrm) Hall).
    eexists. split; reflexivity.
Qed.

(** C9, as the code has it.  Once the batch has come to its end,
    whatever became of the single objects, the script ends normally and
    the manifest file, which [os.remove] is taken to let go, is gone
    from the download folder, the other files being as the batch left
    them; the batch does come to its end when
    the manifest is at hand and the destinations of its entries can be
    opened and written.  When the batch ends on an exception instead,
    the script ends on it, and the manifest file stays in the download
    folder. *)
Theorem manifest_is_removed_after_the_batch a w :
  well_formed_period (year_month a) = true ->
  (removable env (warc_paths_local a) ->
   forall rs w2,
     download_all env a w = (Ret rs, w2) ->
     exists w',
       main env a w = (Ret tt, w')
       /\ fs w' = delete (warc_paths_local a) (fs w2)
       /\ fs w' !! warc_paths_local a = None)
  /\ (forall file_paths w1,
        fetch_manifest env a (add_events [EvMakedirs (DOWNLOAD_FOLDER a)] w)
        = (Ret file_paths, w1) ->
        (forall p, In p file_paths ->
           writable env (local_filename (DOWNLOAD_FOLDER a) p)) ->
        exists rs w2, download_all env a w = (Ret rs, w2))
  /\ (forall file_paths w1 e w2,
        fetch_manifest env a (add_events [EvMakedirs (DOWNLOAD_FOLDER a)] w)
        = (Ret file_paths, w1) ->
        download_all env a w = (Raise e, w2) ->
        main env a w = (Raise e, w2)
        /\ is_Some (fs w2 !! warc_paths_local a)).
Proof.
  intros Hwf. split; [|split].
  - intros Hdir rs w2 Hall.
    rewrite main_unfold, Hwf, (run_after_batch env a w rs w2 Hdir Hall).
    eexists. split; [reflexivity|]. cbn [fs].
    split; [reflexivity | apply lookup_delete_eq].
  - intros file_paths w1 Hm Hw. exact (download_all_returns env a w _ _ Hm Hw).
  - intros file_paths w1 e w2 Hm Hall. split.
    + rewrite main_unfold, Hwf. unfold run, bind. rewrite Hall. reflexivity.
    + destruct (fetch_manifest_returns env a _ _ _ Hm) as [data Hdata].
      destruct (download_all_after_manifest env a w file_paths w1 Hm)
        as (sel & evs & E & _).
      rewrite E in Hall.
      pose proof (fetch_batch_keeps env (DOWNLOAD_FOLDER a) sel
                    (add_events evs w1) (warc_paths_local a) data Hdata) as Hk.
      rewrite Hall in Hk. cbn [snd] in Hk. rewrite Hk. eauto.
Qed.

End ScriptClaims.

(** ** Further properties of [download_with_retries] *)

Section RetryProperties.
Context (env : environment) `{OsPath}.

(** X1.  [download_with_retries] returns [True] only for a complete
    download: the last request was answered without an error status, its
    body arrived to the end, and the destination holds exactly that body
    (nothing of an earlier, broken attempt).  No other file has changed,
    and a later call of [download_warc_file] for this destination skips
    it. *)
Theorem true_means_complete_download url local_path retries backoff w w' :
  download_with_retries env url local_path retries backoff w = (Ret true, w') ->
  exists r,
    net env url (get_count (trace w') - 1) = GetResponse r
    /\ complete r = true
    /\ fs w' !! local_path = Some (join_chunks (chunks r))
    /\ (forall q, q <> local_path -> fs w' !! q = fs w !! q)
    /\ forall folder path w2,
         fs w2 = fs w' ->
         local_filename folder path = local_path ->
         download_warc_file env folder path w2
         = (Ret tt, add_events [EvLog INFO (MsgSkipping local_path)] w2).
Proof.
  intros Hrun. unfold download_with_retries in Hrun.
  destruct (retry_loop_true env url local_path retries _ _ _ _ Hrun)
    as (r & _ & Hnet & Hc & _ & Hfs).
  exists r. split; [exact Hnet|]. split; [exact Hc|]. split; [exact Hfs|].
  split.
  - intros q Hq.
    pose proof (retry_loop_frame env url local_path retries
                  (Z.to_nat retries) backoff w q Hq) as Hfr.
    rewrite Hrun in Hfr. exact Hfr.
  - intros folder path w2 Hw2 Hlocal. rewrite <- Hlocal.
    apply download_warc_file_skip, present_file.
    rewrite Hlocal, Hw2, Hfs. eauto.
Qed.

(** X2.  When the first [j] attempts end in network errors and the next
    request, still within the [retries] attempts, is answered completely,
    [download_with_retries] returns [True] after [j + 1] requests, having
    waited [backoff], [2*backoff], ... between them ([j] waits,
    [backoff * (2^j - 1)] in all), and the destination holds the body of
    that last response.  The [j] waits are taken to be durations that
    [time.sleep] accepts, the destination to be one that [open] accepts
    and the disk to take what is written. *)
Theorem download_recovers_after_failures url local_path retries backoff w j r :
  (j < Z.to_nat retries)%nat ->
  waits_accepted env backoff j = true ->
  (forall i, (i < j)%nat ->
     ends_in_network_error (opens env local_path)
       (net env url (get_count (trace w) + i)) = true) ->
  net env url (get_count (trace w) + j) = GetResponse r ->
  complete r = true ->
  opens env local_path = true ->
  disk_accepts env local_path ->
  exists w',
    download_with_retries env url local_path retries backoff w = (Ret true, w')
    /\ get_count (trace w') = (get_count (trace w) + j + 1)%nat
    /\ sleeps (trace w') = (sleeps (trace w) ++ backoff_series backoff j)%list
    /\ slept (trace w') = slept (trace w) + backoff * (2 ^ Z.of_nat j - 1)
    /\ fs w' !! local_path = Some (join_chunks (chunks r)).
Proof.
  intros Hj Hw Hfail Hnet Hc Hopen Hd. unfold download_with_retries.
  destruct (retry_loop_recovers env url local_path retries r Hc Hopen Hd
              j (Z.to_nat retries) backoff w Hj Hw Hfail Hnet) as (f & E & Hf).
  eexists. split; [exact E|]. cbn [trace fs].
  rewrite !get_count_app, !sleeps_app, !slept_app, get_count_failed_attempts,
    sleeps_failed_attempts, slept_failed_attempts, geometric_sum_closed.
  cbn [get_count sleeps slept app]. rewrite app_nil_r.
  split; [lia|]. split; [reflexivity|]. split; [lia | exact Hf].
Qed.

(** X3.  Whatever the network and the file system do,
    [download_with_retries] requests nothing but [url], at most [retries]
    times and at least once when [retries] is positive; its waits are
    [backoff], [2*backoff], ..., each the double of the one before, and
    add up to at most [backoff * (2^retries - 1)].  It returns [False]
    only after exactly [retries] requests and as many waits, and [True]
    with one wait less than requests. *)
Theorem requests_and_waits_are_bounded url local_path retries backoff w :
  let run := download_with_retries env url local_path retries backoff w in
  exists evs j,
    trace run.2 = (trace w ++ evs)%list
    /\ (forall u, In (EvGet u) evs -> u = url)
    /\ (get_count evs <= Z.to_nat retries)%nat
    /\ (0 < retries -> (1 <= get_count evs)%nat)
    /\ sleeps evs = backoff_series backoff j
    /\ (j <= get_count evs)%nat
    /\ (run.1 = Ret false -> get_count evs = Z.to_nat retries /\ j = Z.to_nat retries)
    /\ (run.1 = Ret true -> get_count evs = S j)
    /\ (0 <= backoff -> 0 <= slept evs <= backoff * (2 ^ Z.max 0 retries - 1)).
Proof.
  cbv zeta. unfold download_with_retries.
  destruct (retry_loop_bounds env url local_path retries (Z.to_nat retries)
              backoff w) as (evs & j & T & Hle & Hge & Hs & Hj & Hfalse & Htrue).
  exists evs, j. split; [exact T|]. split.
  { destruct (grows_download_with_retries env url local_path retries backoff w)
      as (evs' & T' & F).
    unfold download_with_retries in T'. rewrite T in T'.
    apply app_inv_head in T'. subst evs'.
    intros u Hu. rewrite Forall_forall in F. symmetry.
    apply (F (EvGet u)); [apply list_elem_of_In; exact Hu | reflexivity]. }
  split; [exact Hle|]. split; [intros Hr; apply Hge; lia|].
  split; [exact Hs|]. split; [exact Hj|]. split; [exact Hfalse|].
  split; [exact Htrue|].
  intros Hb. rewrite (slept_backoff_series evs backoff j Hs).
  split; [apply geometric_sum_nonneg, Hb|].
  transitivity (geometric_sum backoff 2 (Z.to_nat retries)).
  - apply geometric_sum_mono; [exact Hb | lia].
  - rewrite geometric_sum_closed.
    replace (Z.of_nat (Z.to_nat retries)) with (Z.max 0 retries) by lia. lia.
Qed.

(** X4.  When every attempt ends in a network error and the last one is
    the one whose body breaks off, [download_with_retries] returns
    [False] and leaves at the destination the part of the body that the
    last attempt received; a later call of [download_warc_file] for this
    destination skips it.  The waits are taken to be durations that
    [time.sleep] accepts, the destination to be one that [open] accepts
    and the disk to take what is written. *)
Theorem broken_last_attempt_stays url local_path retries backoff w r :
  0 < retries ->
  waits_accepted env backoff (Z.to_nat retries) = true ->
  (forall i, (i < Z.to_nat retries - 1)%nat ->
     ends_in_network_error (opens env local_path)
       (net env url (get_count (trace w) + i)) = true) ->
  net env url (get_count (trace w) + (Z.to_nat retries - 1)) = GetResponse r ->
  breaks_off r = true ->
  opens env local_path = true ->
  disk_accepts env local_path ->
  exists w',
    download_with_retries env url local_path retries backoff w = (Ret false, w')
    /\ fs w' !! local_path = Some (join_chunks (chunks r))
    /\ forall folder path w2,
         fs w2 = fs w' ->
         local_filename folder path = local_path ->
         download_warc_file env folder path w2
         = (Ret tt, add_events [EvLog INFO (MsgSkipping local_path)] w2).
Proof.
  intros Hr Hw Hfail Hnet Hbr Hopen Hd. unfold download_with_retries.
  destruct (Z.to_nat retries) as [|n] eqn:Hn; [lia|].
  replace (S n - 1)%nat with n in * by lia.
  destruct (retry_loop_last_breaks env url local_path retries r Hbr Hopen Hd
              n backoff w Hw Hfail Hnet) as (Hout & Hfs).
  destruct (retry_loop env url local_path retries (S n) backoff w) as [o w1].
  cbn [fst snd] in *. subst o. exists w1.
  split; [reflexivity|]. split; [exact Hfs|].
  intros folder path w2 Hw2 Hlocal. rewrite <- Hlocal.
  apply download_warc_file_skip, present_file.
  rewrite Hlocal, Hw2, Hfs. eauto.
Qed.

(** X13.  When an attempt ends in a network error and [time.sleep] does
    not take the wait, the exception of [time.sleep] ends
    [download_with_retries] there and then, after the warning and
    without a further request: nothing catches it.  A negative [backoff]
    is such a wait; it raises [ValueError] ([OverflowError] when it does
    not even fit the count of nanoseconds). *)
Theorem refused_wait_ends_the_call url local_path retries backoff w :
  0 < retries ->
  fails_before_body (net env url (get_count (trace w))) = true ->
  sleep_accepts env backoff = false ->
  exists e,
    download_with_retries env url local_path retries backoff w
    = (Raise e,
       add_events [EvLog INFO (MsgAttempting url); EvGet url;
                   EvLog WARNING (MsgRetrying url backoff)] w)
    /\ (e = OSError \/ e = ValueError \/ e = OverflowError)
    /\ (backoff < 0 ->
        e = (if backoff <? - SLEEP_MAX then OverflowError else ValueError)).
Proof.
  intros Hr Hearly Hs. unfold download_with_retries.
  destruct (Z.to_nat retries) as [|n] eqn:Hn; [lia|].
  rewrite retry_loop_S. unfold try_except_request.
  assert (E : exists x,
             attempt env url local_path w
             = (Raise (RequestException x),
                add_events [EvLog INFO (MsgAttempting url); EvGet url] w)).
  { rewrite attempt_unfold. cbv zeta.
    destruct (net env url (get_count (trace w))) as [x|r]; cbn in Hearly.
    - exists x. reflexivity.
    - rewrite Hearly. exists HTTPError. reflexivity. }
  destruct E as (x & ->).
  destruct (retry_handler_refused env WARNING (MsgRetrying url backoff) backoff
              (retry_loop env url local_path retries n (backoff * 2))
              (add_events [EvLog INFO (MsgAttempting url); EvGet url] w) Hs)
    as (e & E & He).
  exists e. split; [rewrite E, add_events_add_events; reflexivity|].
  split; [exact He|].
  intros Hneg. revert E.
  unfold bind, log, emit, sleep, raise.
  destruct (backoff <? - SLEEP_MAX) eqn:Hlow; cbn [orb].
  - intros [= <-]. reflexivity.
  - replace (backoff <? 0) with true by lia.
    replace (SLEEP_MAX <? backoff) with false by (unfold SLEEP_MAX; lia).
    intros [= <-]. reflexivity.
Qed.

End RetryProperties.

(** ** Further properties of the batch *)

Section BatchProperties.
Context (env : environment) `{OsPath}.

(** X5.  The batch never changes a file that is there when it starts,
    and the only files it creates are destinations of its entries,
    whatever the network and the file system do. *)
Theorem batch_keeps_existing_files folder paths w q :
  (forall d,
     fs w !! q = Some d ->
     fs (fetch_batch env folder paths w).2 !! q = Some d)
  /\ (is_Some (fs (fetch_batch env folder paths w).2 !! q) ->
      is_Some (fs w !! q)
      \/ exists p, In p paths /\ q = local_filename folder p).
Proof.
  rewrite fetch_batch_unfold.
  destruct (executor_map_prefix env (download_warc_file env folder) paths
              (add_events [EvLog INFO (MsgStarting (length paths))] w))
    as (m & ->).
  split.
  - intros d Hd. apply tasks_keep. exact Hd.
  - intros Hq. apply tasks_create_only_destinations in Hq.
    destruct Hq as [Hq | (p & Hp & ->)]; [left; exact Hq|].
    right. exists p. split; [eapply in_firstn; exact Hp | reflexivity].
Qed.

(** X6.  Whatever the network does, the batch makes at most 5 requests
    and waits at most 310 seconds per entry. *)
Theorem batch_requests_are_bounded folder paths w :
  exists evs,
    trace (fetch_batch env folder paths w).2 = (trace w ++ evs)%list
    /\ (get_count evs <= 5 * length paths)%nat
    /\ 0 <= slept evs <= 310 * Z.of_nat (length paths).
Proof.
  rewrite fetch_batch_unfold.
  destruct (executor_map_prefix env (download_warc_file env folder) paths
              (add_events [EvLog INFO (MsgStarting (length paths))] w))
    as (m & ->).
  destruct (tasks_bounds env folder (firstn m paths)
              (add_events [EvLog INFO (MsgStarting (length paths))] w))
    as (evs & T & G & S).
  assert (Hlen : (length (firstn m paths) <= length paths)%nat)
    by (rewrite length_firstn; lia).
  exists (EvLog INFO (MsgStarting (length paths)) :: evs).
  rewrite T. cbn [trace add_events]. rewrite <- app_assoc.
  split; [reflexivity|]. cbn [get_count slept app]. split; lia.
Qed.

End BatchProperties.

(** ** Further properties of the script *)

Section ScriptProperties.
Context (env : environment) `{OsPath}.

(** X7.  A manifest file found in the download folder is used as it is:
    the manifest is not requested, and every request of the run is for
    one of the entries of that file.  When the file does not decode, the
    script ends on the uncaught exception right after creating the
    folder, without a single request and leaving the file in place,
    whatever the network would answer. *)
Theorem local_manifest_is_reused a w data :
  well_formed_period (year_month a) = true ->
  fs w !! warc_paths_local a = Some data ->
  (forall lines,
     gunzip_lines env data = Some lines ->
     exists evs,
       trace (main env a w).2
       = (trace w ++ EvMakedirs (DOWNLOAD_FOLDER a)
            :: EvLog INFO (MsgExtracting (warc_paths_local a)) :: evs)%list
       /\ forall u, In (EvGet u) evs ->
            exists p, In p (map strip lines) /\ u = (DOWNLOAD_URL ++ p)%string)
  /\ (gunzip_lines env data = None ->
      main env a w
      = (Raise BadGzipFile,
         add_events [EvMakedirs (DOWNLOAD_FOLDER a);
                     EvLog INFO (MsgExtracting (warc_paths_local a))] w)
      /\ fs (main env a w).2 !! warc_paths_local a = Some data).
Proof.
  intros Hwf Hdata.
  assert (Hm := fetch_manifest_local env a
                  (add_events [EvMakedirs (DOWNLOAD_FOLDER a)] w) data Hdata).
  split.
  - intros lines Hgz. rewrite Hgz in Hm.
    rewrite main_unfold, Hwf.
    unfold run, bind at 1, download_all, bind at 1, makedirs, emit.
    unfold bind at 1. rewrite Hm. unfold bind at 1.
    destruct (limit_paths_run a (map strip lines)
                (add_events [EvLog INFO (MsgExtracting (warc_paths_local a))]
                   (add_events [EvMakedirs (DOWNLOAD_FOLDER a)] w)))
      as (e1 & E1 & F1).
    rewrite E1.
    set (sel := if int_truthy (max_files a)
                then slice_to (default 0 (max_files a)) (map strip lines)
                else map strip lines).
    set (U := fun u => exists p, In p (map strip lines)
                                 /\ u = (DOWNLOAD_URL ++ p)%string).
    assert (G : grows (gets_within U)
                  (_ <- fetch_batch env (DOWNLOAD_FOLDER a) sel ;; cleanup env a)).
    { apply grows_bind; [|intros _; apply grows_cleanup_gets].
      eapply grows_weaken; [|apply grows_fetch_batch].
      intros e He u Hu. destruct (He u Hu) as (p & Hp & ->).
      exists p. split; [|reflexivity]. subst sel.
      destruct (int_truthy (max_files a)); [eapply in_slice_to|]; exact Hp. }
    match goal with |- context [add_events e1 ?w1] =>
      destruct (G (add_events e1 w1)) as (e2 & E2 & F2)
    end.
    exists (e1 ++ e2)%list. split.
    + unfold bind in E2 |- *. rewrite E2. cbn [trace add_events].
      rewrite <- !app_assoc. reflexivity.
    + intros u Hu. apply in_app_or in Hu as [Hu | Hu].
      * rewrite Forall_forall in F1.
        destruct (F1 (EvGet u) ltac:(apply list_elem_of_In; exact Hu) u eq_refl).
      * rewrite Forall_forall in F2.
        exact (F2 (EvGet u) ltac:(apply list_elem_of_In; exact Hu) u eq_refl).
  - intros Hgz. rewrite Hgz in Hm.
    assert (Hmain : main env a w
                    = (Raise BadGzipFile,
                       add_events [EvMakedirs (DOWNLOAD_FOLDER a);
                                   EvLog INFO (MsgExtracting (warc_paths_local a))]
                         w)).
    { rewrite main_unfold, Hwf.
      unfold run, bind at 1, download_all, bind at 1, makedirs, emit.
      unfold bind at 1. rewrite Hm. rewrite add_events_add_events. reflexivity. }
    split; [exact Hmain|]. rewrite Hmain. exact Hdata.
Qed.

(** X8.  [--max-files k] with [k] other than 0 always leaves an initial
    segment of the manifest: the whole manifest when [k] is at least its
    length [N], and for a negative [k] the manifest without its last
    [-k] entries (nothing at all when [-k] is [N] or more). *)
Theorem max_files_edges a file_paths k w :
  max_files a = Some k ->
  k <> 0 ->
  let N := Z.of_nat (length file_paths) in
  exists sel,
    limit_paths a file_paths w
    = (Ret sel, add_events [EvLog INFO (MsgLimited k)] w)
    /\ initial_segment sel file_paths
    /\ Z.of_nat (length sel) = (if k <? 0 then Z.max 0 (N + k) else Z.min k N)
    /\ (N <= k -> sel = file_paths)
    /\ (k <= - N -> sel = []).
Proof.
  intros Hk Hk0 N. unfold limit_paths, slice_to. rewrite Hk.
  cbv [int_truthy default from_option id].
  replace (k =? 0) with false by lia. cbn [negb].
  assert (Hseg : forall n, initial_segment (firstn n file_paths) file_paths).
  { intros n. unfold initial_segment. rewrite length_firstn.
    destruct (Nat.le_ge_cases n (length file_paths)) as [Hn | Hn].
    - rewrite Nat.min_l by exact Hn. reflexivity.
    - rewrite Nat.min_r by exact Hn. rewrite !firstn_all2 by lia. reflexivity. }
  destruct (k <? 0) eqn:Hneg; eexists; (split; [reflexivity|]);
    (split; [apply Hseg|]); rewrite length_firstn; subst N.
  - split; [lia|]. split; [lia|].
    intros Hall. replace (Z.to_nat (Z.of_nat (length file_paths) + k)) with 0%nat
      by lia. reflexivity.
  - split; [lia|]. split.
    + intros Hall. apply firstn_all2. lia.
    + lia.
Qed.

Lemma bind_starts {A B} (m : M A) (k : A -> M B) w pre :
  (exists evs, trace (m w).2 = (trace w ++ pre ++ evs)%list) ->
  (forall a, grows any_event (k a)) ->
  exists evs, trace (bind m k w).2 = (trace w ++ pre ++ evs)%list.
Proof.
  intros (e1 & E1) Hk. unfold bind.
  destruct (m w) as [[a|e|c] w1]; cbn [snd] in *; try (exists e1; exact E1).
  destruct (Hk a w1) as (e2 & E2 & _).
  exists (e1 ++ e2)%list. rewrite E2, E1, <- !app_assoc. reflexivity.
Qed.

Lemma main_returns a w w' :
  main env a w = (Ret tt, w') ->
  well_formed_period (year_month a) = true
  /\ is_dir env (warc_paths_local a) = false
  /\ exists rs w2,
       download_all env a w = (Ret rs, w2)
       /\ fs w' = delete (warc_paths_local a) (fs w2).
Proof.
  rewrite main_unfold.
  destruct (well_formed_period (year_month a)); [|discriminate].
  intros Hrun. split; [reflexivity|].
  unfold run, bind in Hrun.
  destruct (download_all env a w) as [[rs|e|c] w2] eqn:Hall;
    [|discriminate|discriminate].
  destruct (cleanup_returns env a w2 w' Hrun) as [Hfs Hdir].
  split; [exact Hdir|]. exists rs, w2. split; [reflexivity | exact Hfs].
Qed.

Lemma run_requests_missing_manifest a w :
  present env w (warc_paths_local a) = false ->
  exists evs,
    trace (run env a w).2
    = (trace w ++ EvMakedirs (DOWNLOAD_FOLDER a)
         :: EvLog INFO (MsgAttempting (BASE_URL ++ WARC_PATHS_FILE a))
         :: EvGet (BASE_URL ++ WARC_PATHS_FILE a) :: evs)%list.
Proof.
  intros Hno.
  set (w1 := add_events [EvMakedirs (DOWNLOAD_FOLDER a)] w).
  set (rest :=
         _ <- (file_paths <- fetch_manifest env a ;;
               file_paths <- limit_paths a file_paths ;;
               fetch_batch env (DOWNLOAD_FOLDER a) file_paths) ;;
         cleanup env a).
  assert (Hrest : exists evs,
             trace (rest w1).2
             = (trace w1
                  ++ [EvLog INFO (MsgAttempting (BASE_URL ++ WARC_PATHS_FILE a));
                      EvGet (BASE_URL ++ WARC_PATHS_FILE a)] ++ evs)%list).
  { subst rest.
    apply bind_starts; [|intros _; apply grows_cleanup].
    apply bind_starts.
    2: { intros fp. apply grows_bind; [apply grows_limit_paths | intros fp'].
         eapply grows_any, grows_fetch_batch. }
    unfold fetch_manifest, bind at 1, path_exists.
    change (bool_decide (is_Some (fs w1 !! warc_paths_local a))
            || is_dir env (warc_paths_local a))
      with (present env w (warc_paths_local a)).
    rewrite Hno. cbn [negb].
    apply bind_starts.
    2: { intros _. apply grows_bind; [apply grows_log; exact I | intros _].
         apply grows_bind; auto with grows. }
    apply bind_starts.
    2: { intros ok. destruct (negb ok); [|auto with grows].
         apply grows_bind; [apply grows_log; exact I | auto with grows]. }
    apply download_with_retries_starts. unfold default_retries. lia. }
  destruct Hrest as (evs & E). exists evs.
  change (run env a w) with (rest w1). rewrite E.
  subst w1. cbn [trace add_events]. rewrite <- app_assoc. reflexivity.
Qed.

(** X10.  A run that comes to its end leaves no manifest file behind, so
    the next run for the same arguments, whatever it finds on the
    network, first creates the folder and then requests the manifest
    again. *)
Theorem complete_run_forgets_manifest a w w' :
  main env a w = (Ret tt, w') ->
  fs w' !! warc_paths_local a = None
  /\ forall w2,
       fs w2 = fs w' ->
       exists evs,
         trace (main env a w2).2
         = (trace w2 ++ EvMakedirs (DOWNLOAD_FOLDER a)
              :: EvLog INFO (MsgAttempting (BASE_URL ++ WARC_PATHS_FILE a))
              :: EvGet (BASE_URL ++ WARC_PATHS_FILE a) :: evs)%list.
Proof.
  intros Hmain.
  destruct (main_returns a w w' Hmain) as (Hwf & Hdir & rs & w1 & _ & Hfs).
  assert (Hgone : fs w' !! warc_paths_local a = None)
    by (rewrite Hfs; apply lookup_delete_eq).
  split; [exact Hgone|].
  intros w2 Hw2. rewrite main_unfold, Hwf.
  apply run_requests_missing_manifest. unfold present.
  rewrite Hw2, Hgone, Hdir.
  rewrite bool_decide_eq_false_2 by (intros [x Hx]; discriminate).
  reflexivity.
Qed.

End ScriptProperties.

Section PosixPaths.

Lemma basename_from_after_slash s acc t :
  basename_from acc (s ++ String "/" t) = basename_from EmptyString t.
Proof.
  revert acc; induction s as [|c s IH]; intros acc.
  - reflexivity.
  - change (String c s ++ String "/" t)%string
      with (String c (s ++ String "/" t)).
    cbn [basename_from]. destruct (Ascii.eqb c "/"); apply IH.
Qed.

(** X9.  With [posixpath], the manifest is kept at [warc.paths.gz]
    directly in the download folder, whatever the period; two runs with
    the same [--download-folder] share that file even when their periods
    differ. *)
Theorem manifest_path_ignores_period (a : arguments) :
  @warc_paths_local posixpath a
  = posix_join (@DOWNLOAD_FOLDER posixpath a) "warc.paths.gz"
  /\ forall b d,
       download_folder a = Some d ->
       download_folder b = Some d ->
       str_truthy d = true ->
       @warc_paths_local posixpath b = @warc_paths_local posixpath a.
Proof.
  assert (Hpath : forall c : arguments,
             @warc_paths_local posixpath c
             = posix_join (@DOWNLOAD_FOLDER posixpath c) "warc.paths.gz").
  { intros c. unfold warc_paths_local, WARC_PATHS_FILE. cbn [path_join basename posixpath].
    rewrite basename_from_after_slash. reflexivity. }
  split; [apply Hpath|].
  intros b d Ha Hb Hd. rewrite !Hpath. unfold DOWNLOAD_FOLDER.
  rewrite Ha, Hb. cbn [optstr_truthy]. rewrite Hd. reflexivity.
Qed.

End PosixPaths.

Section TaskProperties.
Context (env : environment) `{OsPath}.

(** X11.  [download_warc_file] goes to the network exactly when
    [os.path.exists] finds nothing at its destination, neither a file
    nor a directory; then it makes between one and five requests, all
    for the URL of its own path. *)
Theorem request_exactly_when_missing folder path w :
  exists evs,
    trace (download_warc_file env folder path w).2 = (trace w ++ evs)%list
    /\ (forall u, In (EvGet u) evs -> u = (DOWNLOAD_URL ++ path)%string)
    /\ (get_count evs <= 5)%nat
    /\ (get_count evs = 0%nat
        <-> present env w (local_filename folder path) = true).
Proof.
  destruct (grows_download_warc_file env folder path w) as (evs & T & F).
  exists evs. split; [exact T|]. split.
  { intros u Hu. rewrite Forall_forall in F. symmetry.
    apply (F (EvGet u)); [apply list_elem_of_In; exact Hu | reflexivity]. }
  destruct (present env w (local_filename folder path)) eqn:Hex.
  - rewrite download_warc_file_skip in T by exact Hex.
    cbn [snd trace add_events] in T. apply app_inv_head in T. subst evs.
    cbn. split; [lia|]. split; reflexivity.
  - rewrite download_warc_file_fetch in T by exact Hex.
    rewrite bind_ret_tt_snd in T. unfold download_with_retries in T.
    change (Z.to_nat default_retries) with 5%nat in T.
    destruct (retry_loop_bounds env (DOWNLOAD_URL ++ path)
                (local_filename folder path) default_retries 5 default_backoff w)
      as (evs' & j & T' & Hle & Hge & _).
    rewrite T' in T. apply app_inv_head in T. subst evs'.
    split; [exact Hle|]. split.
    + intros H0. specialize (Hge ltac:(lia)). lia.
    + discriminate.
Qed.

End TaskProperties.

(** ** What a run does to the files it finds *)

Section Preservation.
Context (env : environment) `{OsPath}.

Lemma preserves_bind L {A B} (m : M A) (k : A -> M B) :
  preserves L m -> (forall a, preserves L (k a)) -> preserves L (bind m k).
Proof.
  intros Hm Hk w q d Hq Hd. unfold bind.
  specialize (Hm w q d Hq Hd).
  destruct (m w) as [[a|e|c] w1]; cbn [snd] in *; try exact Hm.
  apply Hk; assumption.
Qed.

Lemma preserves_pure L {A} (m : M A) :
  (forall w, fs (m w).2 = fs w) -> preserves L m.
Proof. intros Hfs w q d _ Hd. rewrite Hfs. exact Hd. Qed.

Lemma preserves_log L lvl msg : preserves L (log lvl msg).
Proof. apply preserves_pure. reflexivity. Qed.

Lemma preserves_ret L {A} (a : A) : preserves L (ret a).
Proof. apply preserves_pure. reflexivity. Qed.

Lemma preserves_remove L : preserves L (remove env L).
Proof.
  intros w q d Hq Hd. unfold remove.
  destruct (is_dir env L || negb (can_remove env L)); [exact Hd|].
  destruct (fs w !! L); [|exact Hd].
  cbn. rewrite lookup_delete_ne by congruence. exact Hd.
Qed.

Lemma preserves_download_with_retries url L retries backoff :
  preserves L (download_with_retries env url L retries backoff).
Proof.
  intros w q d Hq Hd. unfold download_with_retries.
  rewrite retry_loop_frame by exact Hq. exact Hd.
Qed.

Lemma preserves_fetch_manifest a :
  preserves (warc_paths_local a) (fetch_manifest env a).
Proof.
  unfold fetch_manifest.
  apply preserves_bind; [apply preserves_pure; reflexivity | intros ex].
  apply preserves_bind.
  - destruct (negb ex); [|apply preserves_ret].
    apply preserves_bind; [apply preserves_download_with_retries | intros ok].
    destruct (negb ok); [|apply preserves_ret].
    apply preserves_bind; [apply preserves_log | intros _].
    apply preserves_pure. reflexivity.
  - intros _. apply preserves_bind; [apply preserves_log | intros _].
    apply preserves_bind; [|intros lines; apply preserves_ret].
    apply preserves_pure. intros w. unfold gzip_read_lines.
    destruct (fs w !! warc_paths_local a) as [data|];
      [destruct (gunzip_lines env data)|]; reflexivity.
Qed.

Lemma preserves_fetch_batch L folder paths :
  preserves L (fetch_batch env folder paths).
Proof.
  intros w q d _ Hd. apply fetch_batch_keeps. exact Hd.
Qed.

Lemma preserves_cleanup a : preserves (warc_paths_local a) (cleanup env a).
Proof.
  unfold cleanup.
  apply preserves_bind; [apply preserves_log | intros _].
  apply preserves_bind; [apply preserves_pure; reflexivity | intros ex].
  apply preserves_bind; [|intros _; apply preserves_log].
  destruct ex; [apply preserves_remove | apply preserves_ret].
Qed.

(** X12.  However a run ends, every file that exists before it, other
    than the manifest file in the download folder, is still there
    afterwards with the same content: the script overwrites and deletes
    nothing but its manifest. *)
Theorem run_keeps_existing_files a w q d :
  q <> warc_paths_local a ->
  fs w !! q = Some d ->
  fs (main env a w).2 !! q = Some d.
Proof.
  revert w q d. change (preserves (warc_paths_local a) (main env a)).
  unfold main.
  apply preserves_bind; [apply preserves_pure; reflexivity | intros bad].
  destruct bad.
  - apply preserves_bind; [apply preserves_log | intros _].
    apply preserves_pure. reflexivity.
  - unfold run, download_all.
    apply preserves_bind; [|intros _; apply preserves_cleanup].
    apply preserves_bind; [apply preserves_pure; reflexivity | intros _].
    apply preserves_bind; [apply preserves_fetch_manifest | intros fp].
    apply preserves_bind; [|intros fp'; apply preserves_fetch_batch].
    apply preserves_pure. intros w.
    destruct (limit_paths_run a fp w) as (evs & -> & _). reflexivity.
Qed.

End Preservation.

(** ** Concrete runs *)

Section Runs.
Import Scenario Replay.

Lemma failure_before_body_leaves_no_file_witness :
  (forall n, fails_before_body (net unreachable url1 n) = true)
  /\ fs empty_world !! "data/1.warc.gz" = None
  /\ exists w',
       download_with_retries unreachable url1 "data/1.warc.gz" 5 10 empty_world
       = (Ret false, w')
       /\ fs w' !! "data/1.warc.gz" = None
       /\ get_count (trace (download_warc_file unreachable "data" "a/1.warc.gz"
                              (later w')).2) = 5%nat.
Proof.
  split; [intros n; reflexivity|]. split; [reflexivity|].
  destruct (failure_before_body_leaves_no_file unreachable url1 "data/1.warc.gz"
              5 10 empty_world (fun n => eq_refl) eq_refl)
    as (_ & _ & Hret & Hagain).
  destruct (Hret eq_refl) as (w' & E & Hfs & Hno).
  exists w'. split; [exact E|]. split; [exact Hno|].
  exact (Hagain eq_refl "data" "a/1.warc.gz" (later w') Hfs eq_refl eq_refl).
Defined.

(** C1 fails on the code: when the body breaks off while it is streamed,
    each attempt ends in a network error, all five attempts are used up,
    and the truncated file stays at the destination; a later invocation
    finds it and skips the object without a request. *)
Lemma broken_stream_leaves_partial_file :
  let r := download_with_retries truncating url1 "data/1.warc.gz" 5 10
             empty_world in
  (forall n,
     ends_in_network_error (opens truncating "data/1.warc.gz")
       (net truncating url1 n) = true)
  /\ fs empty_world !! "data/1.warc.gz" = None
  /\ r.1 = Ret false
  /\ get_count (trace r.2) = 5%nat
  /\ fs r.2 !! "data/1.warc.gz" = Some "abc"
  /\ download_warc_file truncating "data" "a/1.warc.gz" (later r.2)
     = (Ret tt,
        {| fs := fs r.2;
           trace := [EvLog INFO (MsgSkipping "data/1.warc.gz")] |}).
Proof.
  cbv zeta. split; [intros n; reflexivity|].
  repeat split; vm_compute; reflexivity.
Qed.

Lemma retry_ceiling_witness :
  0 <= 5
  /\ waits_accepted unreachable 10 (Z.to_nat 5) = true
  /\ disk_accepts unreachable "data/1.warc.gz"
  /\ (forall n,
        ends_in_network_error (opens unreachable "data/1.warc.gz")
          (net unreachable url1 n) = true)
  /\ exists w',
       download_with_retries unreachable url1
         "data/1.warc.gz" 5 10 empty_world = (Ret false, w')
       /\ get_count (trace w') = (get_count (trace empty_world) + Z.to_nat 5)%nat
       /\ sleeps (trace w')
          = (sleeps (trace empty_world) ++ backoff_series 10 (Z.to_nat 5))%list
       /\ slept (trace w')
          = slept (trace empty_world) + geometric_sum 10 2 (Z.to_nat 5)
       /\ geometric_sum 10 2 (Z.to_nat 5) = 10 * (2 ^ 5 - 1)
       /\ (5 = default_retries -> 10 = default_backoff ->
           get_count (trace w') = (get_count (trace empty_world) + 5)%nat
           /\ slept (trace w') = slept (trace empty_world) + 310).
Proof.
  split; [lia|]. split; [reflexivity|].
  split; [intros n i; reflexivity|]. split; [intros n; reflexivity|].
  apply (retry_ceiling unreachable url1 "data/1.warc.gz" 5 10 empty_world);
    [lia | reflexivity | intros n i; reflexivity | intros n; reflexivity].
Defined.

Lemma existing_destinations_are_skipped_witness :
  is_Some (fs have_first !! local_filename "data" "a/1.warc.gz")
  /\ (exists w',
        download_warc_file unreachable "data" "a/1.warc.gz" have_first
        = (Ret tt, w')
        /\ get_count (trace w') = get_count (trace have_first)
        /\ fs w' = fs have_first)
  /\ (exists w',
        fetch_batch unreachable "data" ["a/1.warc.gz"; "b/1.warc.gz"] have_first
        = (Ret [tt; tt], w')
        /\ get_count (trace w') = get_count (trace have_first)
        /\ fs w' = fs have_first).
Proof.
  assert (Hex : is_Some (fs have_first !! local_filename "data" "a/1.warc.gz"))
    by (exists "one"; reflexivity).
  split; [exact Hex|]. split.
  - destruct (proj1 (existing_destinations_are_skipped unreachable "data")
                "a/1.warc.gz" have_first Hex) as (w' & E & _ & Hc & Hf).
    exists w'. auto.
  - apply (proj2 (existing_destinations_are_skipped unreachable "data")
             ["a/1.warc.gz"; "b/1.warc.gz"] have_first).
    intros p [<- | [<- | []]]; exists "one"; reflexivity.
Defined.

(** C3 fails on the code: an object that the first run could not fetch
    has no file, so the second run does not skip it; with the network
    unchanged it spends another five requests on it. *)
Lemma failed_object_is_requested_again :
  let first := fetch_batch unreachable "data" ["a/1.warc.gz"] empty_world in
  let second := fetch_batch unreachable "data" ["a/1.warc.gz"] (later first.2) in
  first.1 = Ret [tt]
  /\ get_count (trace first.2) = 5%nat
  /\ second.1 = Ret [tt]
  /\ get_count (trace second.2) = 5%nat
  /\ get_count (trace second.2) <> 0%nat.
Proof.
  cbv zeta. repeat split; try (vm_compute; reflexivity).
  vm_compute. discriminate.
Qed.



Lemma truncation_to_first_k_witness :
  max_files (args (Some 1)) = Some 1
  /\ 0 < 1 < Z.of_nat (length ["a/1.warc.gz"; "a/2.warc.gz"])
  /\ limit_paths (args (Some 1)) ["a/1.warc.gz"; "a/2.warc.gz"] empty_world
     = (Ret ["a/1.warc.gz"], add_events [EvLog INFO (MsgLimited 1)] empty_world)
  /\ exists evs,
       trace (fetch_batch second_fails "data" ["a/1.warc.gz"] empty_world).2
       = (trace empty_world ++ evs)%list
       /\ (forall u, In (EvGet u) evs ->
             exists p, In p ["a/1.warc.gz"] /\ u = (DOWNLOAD_URL ++ p)%string)
       /\ In (EvGet url1) evs.
Proof.
  split; [reflexivity|]. split; [simpl; lia|].
  destruct (truncation_to_first_k second_fails (args (Some 1))
              ["a/1.warc.gz"; "a/2.warc.gz"] 1 "data" eq_refl
              ltac:(simpl; lia))
    as (Hlimit & _ & _ & Hbatch & _).
  split; [exact (Hlimit empty_world)|].
  destruct (Hbatch empty_world) as (evs & E & Hget & Htaken).
  exists evs. split; [exact E|]. split; [exact Hget|].
  destruct Htaken as [_ Hmissing].
  { intros p _. split; [reflexivity | intros n i; reflexivity]. }
  apply (Hmissing ltac:(repeat constructor; simpl; tauto) "a/1.warc.gz").
  - left. reflexivity.
  - reflexivity.
Defined.

(** C5 fails on the code: the first twelve of thirteen entries are
    selected, but the task of the first ends on an [OSError]; when the
    pool reads it, it cancels the calls that no worker has taken up, so
    the twelfth entry, whose destination is missing, is neither
    requested nor skipped, while the second was requested. *)
Lemma cancelled_entries_are_never_attempted :
  let a := args (Some 12) in
  let r := main first_unwritable a empty_world in
  max_files a = Some 12
  /\ 0 < 12 < Z.of_nat (length thirteen)
  /\ (fetch_manifest first_unwritable a
        (add_events [EvMakedirs "data"] empty_world)).1 = Ret thirteen
  /\ r.1 = Raise OSError
  /\ nth_error (firstn 12 thirteen) 11 = Some (entry "12")
  /\ present first_unwritable empty_world (local_filename "data" (entry "12"))
     = false
  /\ requested (DOWNLOAD_URL ++ entry "02") (trace r.2) = true
  /\ requested (DOWNLOAD_URL ++ entry "12") (trace r.2) = false
  /\ skipped_line (local_filename "data" (entry "12")) (trace r.2) = false.
Proof. cbv zeta. repeat split; vm_compute; reflexivity. Qed.



Lemma period_validation_witness :
  (String.length "2023/09" = 7%nat /\ String.get 4 "2023/09" = Some "/"%char)
  /\ well_formed_period "2023/09" = true
  /\ main unreachable
       {| year_month := "2023-09"; max_files := None;
          download_folder := Some "data" |} empty_world
     = (Exit 1, add_events [EvLog ERROR MsgInvalidYearMonth] empty_world).
Proof.
  assert (Hok : String.length "2023/09" = 7%nat
                /\ String.get 4 "2023/09" = Some "/"%char)
    by (split; reflexivity).
  split; [exact Hok|]. split.
  - exact (proj2 (proj1 (period_validation unreachable (args None) empty_world))
             Hok).
  - exact (proj1 (proj2 (proj2 (period_validation unreachable
                                  {| year_month := "2023-09"; max_files := None;
                                     download_folder := Some "data" |}
                                  empty_world)))).
Defined.

(** C8 fails on the code: the fetch of the manifest succeeds in both
    runs, yet the script ends with status 1 on an uncaught exception,
    in the first because the payload is not a gzip file, in the second
    because the destination of an object cannot be opened. *)
Lemma fetched_manifest_does_not_ensure_status_0 :
  let made := add_events [EvMakedirs "data"] empty_world in
  let garbled := main garbled_manifest (args None) empty_world in
  let refused := main second_unwritable (args None) empty_world in
  (download_with_retries garbled_manifest manifest_url "data/warc.paths.gz"
     5 10 made).1 = Ret true
  /\ garbled.1 = Raise BadGzipFile
  /\ exit_status garbled.1 = 1
  /\ (download_with_retries second_unwritable manifest_url "data/warc.paths.gz"
        5 10 made).1 = Ret true
  /\ refused.1 = Raise OSError
  /\ exit_status refused.1 = 1.
Proof. cbv zeta. repeat split; vm_compute; reflexivity. Qed.

Lemma manifest_failure_is_fatal_witness :
  well_formed_period (year_month (args None)) = true
  /\ present unreachable empty_world (warc_paths_local (args None)) = false
  /\ (main unreachable (args None) empty_world).1 = Exit 1
  /\ exit_status (main unreachable (args None) empty_world).1 = 1
  /\ exists w',
       main second_fails (args None) empty_world = (Ret tt, w')
       /\ exit_status (main second_fails (args None) empty_world).1 = 0.
Proof.
  split; [reflexivity|]. split; [reflexivity|].
  pose (down := download_with_retries unreachable manifest_url
                  "data/warc.paths.gz" 5 10
                  (add_events [EvMakedirs "data"] empty_world)).
  pose (up := download_with_retries second_fails manifest_url
                "data/warc.paths.gz" 5 10
                (add_events [EvMakedirs "data"] empty_world)).
  assert (Hdown :
            download_with_retries unreachable
              (BASE_URL ++ WARC_PATHS_FILE (args None))
              (warc_paths_local (args None)) default_retries default_backoff
              (add_events [EvMakedirs (DOWNLOAD_FOLDER (args None))] empty_world)
            = (Ret false, down.2)) by (vm_compute; reflexivity).
  assert (Hup :
            download_with_retries second_fails
              (BASE_URL ++ WARC_PATHS_FILE (args None))
              (warc_paths_local (args None)) default_retries default_backoff
              (add_events [EvMakedirs (DOWNLOAD_FOLDER (args None))] empty_world)
            = (Ret true, up.2)) by (vm_compute; reflexivity).
  assert (Hno1 : present unreachable empty_world (warc_paths_local (args None))
                 = false) by (vm_compute; reflexivity).
  assert (Hno2 : present second_fails empty_world (warc_paths_local (args None))
                 = false) by (vm_compute; reflexivity).
  destruct (proj1 (manifest_failure_is_fatal unreachable (args None) empty_world
                     down.2 eq_refl Hno1) Hdown) as (Hmain & Hexit & _).
  split; [rewrite Hmain; reflexivity|]. split; [exact Hexit|].
  apply (proj2 (manifest_failure_is_fatal second_fails (args None) empty_world
                  up.2 eq_refl Hno2)
           "GZ"
           [String.append "a/1.warc.gz" (String "010" EmptyString);
            String.append "a/2.warc.gz" (String "010" EmptyString)]
           Hup).
  - vm_compute; reflexivity.
  - reflexivity.
  - intros p _. split; [reflexivity | intros n i; reflexivity].
  - reflexivity.
Defined.

Lemma manifest_is_removed_after_the_batch_witness :
  well_formed_period (year_month (args None)) = true
  /\ (exists w',
        main second_fails (args None) empty_world = (Ret tt, w')
        /\ fs w' !! "data/warc.paths.gz" = None
        /\ fs w' !! "data/1.warc.gz" = Some "one"
        /\ fs w' !! "data/2.warc.gz" = None)
  /\ exists w2,
       main second_unwritable (args None) empty_world = (Raise OSError, w2)
       /\ is_Some (fs w2 !! "data/warc.paths.gz").
Proof.
  split; [reflexivity|].
  pose (batch := download_all second_fails (args None) empty_world).
  assert (Hbatch : batch = (Ret [tt; tt], batch.2)) by (vm_compute; reflexivity).
  pose (manifest := fetch_manifest second_unwritable (args None)
                      (add_events [EvMakedirs (DOWNLOAD_FOLDER (args None))]
                         empty_world)).
  assert (Hm : manifest = (Ret (map strip
                  [String.append "a/1.warc.gz" (String "010" EmptyString);
                   String.append "a/2.warc.gz" (String "010" EmptyString)]),
                manifest.2)) by (vm_compute; reflexivity).
  pose (broken := download_all second_unwritable (args None) empty_world).
  assert (Hbroken : broken = (Raise OSError, broken.2))
    by (vm_compute; reflexivity).
  assert (Hdir : removable second_fails (warc_paths_local (args None)))
    by (split; vm_compute; reflexivity).
  split.
  - destruct (proj1 (manifest_is_removed_after_the_batch second_fails (args None)
                       empty_world eq_refl) Hdir [tt; tt] batch.2 Hbatch)
      as (w' & Hmain & Hfs & Hgone).
    exists w'. split; [exact Hmain|]. split; [exact Hgone|].
    rewrite Hfs. split; vm_compute; reflexivity.
  - exists broken.2.
    exact (proj2 (proj2 (manifest_is_removed_after_the_batch second_unwritable
                           (args None) empty_world eq_refl))
             _ manifest.2 OSError broken.2 Hm Hbroken).
Defined.

(** C9 fails on the code: when a task of the batch ends on an exception
    that nothing catches, or the manifest does not decode, the script
    ends before the cleanup and the manifest file stays in the download
    folder; the next run takes it for the manifest without requesting
    it, and a manifest that does not decode makes every later run end in
    the same way, without a single request. *)
Lemma manifest_stays_after_an_uncaught_exception :
  let refused := main second_unwritable (args None) empty_world in
  let again := main second_unwritable (args None) (later refused.2) in
  let garbled := main garbled_manifest (args None) empty_world in
  let garbled_again := main garbled_manifest (args None) (later garbled.2) in
  refused.1 = Raise OSError
  /\ fs refused.2 !! "data/warc.paths.gz" = Some "GZ"
  /\ requested manifest_url (trace refused.2) = true
  /\ requested manifest_url (trace again.2) = false
  /\ garbled.1 = Raise BadGzipFile
  /\ fs garbled.2 !! "data/warc.paths.gz" = Some "<html>"
  /\ garbled_again.1 = Raise BadGzipFile
  /\ get_count (trace garbled_again.2) = 0%nat.
Proof. cbv zeta. repeat split; vm_compute; reflexivity. Qed.

End Runs.

(** ** Concrete runs for the further properties *)

Section MoreRuns.
Import Scenario Replay.

Lemma true_means_complete_download_witness :
  let run := download_with_retries recovering url1 "data/1.warc.gz" 5 10
               empty_world in
  run = (Ret true, run.2)
  /\ fs run.2 !! "data/1.warc.gz" = Some "body"
  /\ exists r,
       complete r = true
       /\ fs run.2 !! "data/1.warc.gz" = Some (join_chunks (chunks r)).
Proof.
  cbv zeta.
  assert (Hrun : download_with_retries recovering url1 "data/1.warc.gz" 5 10
                   empty_world
                 = (Ret true,
                    (download_with_retries recovering url1 "data/1.warc.gz" 5 10
                       empty_world).2))
    by (vm_compute; reflexivity).
  split; [exact Hrun|]. split; [vm_compute; reflexivity|].
  destruct (true_means_complete_download recovering url1 "data/1.warc.gz" 5 10
              empty_world _ Hrun) as (r & _ & Hc & Hfs & _).
  exists r. split; [exact Hc | exact Hfs].
Defined.

Lemma download_recovers_after_failures_witness :
  (2 < Z.to_nat 5)%nat
  /\ waits_accepted recovering 10 2 = true
  /\ (forall i, (i < 2)%nat ->
        ends_in_network_error (opens recovering "data/1.warc.gz")
          (net recovering url1 (get_count (trace empty_world) + i)) = true)
  /\ opens recovering "data/1.warc.gz" = true
  /\ disk_accepts recovering "data/1.warc.gz"
  /\ exists w',
       download_with_retries recovering url1 "data/1.warc.gz" 5 10 empty_world
       = (Ret true, w')
       /\ get_count (trace w') = 3%nat
       /\ slept (trace w') = 30
       /\ fs w' !! "data/1.warc.gz" = Some "body".
Proof.
  assert (Hj : (2 < Z.to_nat 5)%nat) by (vm_compute; lia).
  assert (Hfail : forall i, (i < 2)%nat ->
            ends_in_network_error (opens recovering "data/1.warc.gz")
              (net recovering url1 (get_count (trace empty_world) + i)) = true).
  { intros [|[|i]] Hi; [reflexivity | reflexivity | lia]. }
  assert (Hd : disk_accepts recovering "data/1.warc.gz")
    by (intros n i; reflexivity).
  split; [exact Hj|]. split; [reflexivity|]. split; [exact Hfail|].
  split; [reflexivity|]. split; [exact Hd|].
  destruct (download_recovers_after_failures recovering url1 "data/1.warc.gz"
              5 10 empty_world 2
              {| status_code := 200; chunks := ["bo"; "dy"]; broken := None |}
              Hj eq_refl Hfail eq_refl eq_refl eq_refl Hd)
    as (w' & E & Hg & _ & Hs & Hfs).
  exists w'. split; [exact E|]. split; [exact Hg|]. split; [exact Hs | exact Hfs].
Defined.

Lemma requests_and_waits_are_bounded_witness :
  exists evs,
    trace (download_with_retries recovering url1 "data/1.warc.gz" 5 10
             empty_world).2
    = (trace empty_world ++ evs)%list
    /\ (get_count evs <= Z.to_nat 5)%nat
    /\ (forall u, In (EvGet u) evs -> u = url1).
Proof.
  destruct (requests_and_waits_are_bounded recovering url1 "data/1.warc.gz"
              5 10 empty_world) as (evs & j & T & Hu & Hle & _).
  exists evs. split; [exact T|]. split; [exact Hle | exact Hu].
Defined.

Lemma broken_last_attempt_stays_witness :
  0 < 5
  /\ waits_accepted last_breaks 10 (Z.to_nat 5) = true
  /\ opens last_breaks "data/1.warc.gz" = true
  /\ disk_accepts last_breaks "data/1.warc.gz"
  /\ exists w',
       download_with_retries last_breaks url1 "data/1.warc.gz" 5 10 empty_world
       = (Ret false, w')
       /\ fs w' !! "data/1.warc.gz" = Some "abc"
       /\ download_warc_file last_breaks "data" "a/1.warc.gz" (later w')
          = (Ret tt,
             add_events [EvLog INFO (MsgSkipping "data/1.warc.gz")] (later w')).
Proof.
  split; [lia|]. split; [reflexivity|]. split; [reflexivity|].
  split; [intros n i; reflexivity|].
  destruct (broken_last_attempt_stays last_breaks url1 "data/1.warc.gz" 5 10
              empty_world
              {| status_code := 200; chunks := ["ab"; "c"];
                 broken := Some ConnectionError |})
    as (w' & E & Hfs & Hskip).
  - lia.
  - reflexivity.
  - intros i Hi. change (Z.to_nat 5 - 1)%nat with 4%nat in Hi.
    do 4 (destruct i as [|i]; [reflexivity|]). lia.
  - reflexivity.
  - reflexivity.
  - reflexivity.
  - intros n i; reflexivity.
  - exists w'. split; [exact E|]. split; [exact Hfs|].
    exact (Hskip "data" "a/1.warc.gz" (later w') eq_refl eq_refl).
Defined.

Lemma refused_wait_ends_the_call_witness :
  0 < 5
  /\ fails_before_body
       (net unreachable url1 (get_count (trace empty_world))) = true
  /\ sleep_accepts unreachable (-1) = false
  /\ download_with_retries unreachable url1 "data/1.warc.gz" 5 (-1) empty_world
     = (Raise ValueError,
        add_events [EvLog INFO (MsgAttempting url1); EvGet url1;
                    EvLog WARNING (MsgRetrying url1 (-1))] empty_world).
Proof.
  split; [lia|]. split; [reflexivity|]. split; [reflexivity|].
  destruct (refused_wait_ends_the_call unreachable url1 "data/1.warc.gz" 5 (-1)
              empty_world ltac:(lia) eq_refl eq_refl) as (e & E & _ & Hneg).
  rewrite E, (Hneg ltac:(lia)). reflexivity.
Defined.

Lemma batch_keeps_existing_files_witness :
  fs have_first !! "data/1.warc.gz" = Some "one"
  /\ fs (fetch_batch serving "data" ["a/1.warc.gz"; "a/2.warc.gz"] have_first).2
       !! "data/1.warc.gz" = Some "one".
Proof.
  split; [reflexivity|].
  apply (proj1 (batch_keeps_existing_files serving "data"
                  ["a/1.warc.gz"; "a/2.warc.gz"] have_first "data/1.warc.gz")).
  reflexivity.
Defined.

Lemma local_manifest_is_reused_witness :
  well_formed_period (year_month (args None)) = true
  /\ fs (left_manifest "GZ") !! warc_paths_local (args None) = Some "GZ"
  /\ (exists evs,
        trace (main second_fails (args None) (left_manifest "GZ")).2
        = (trace (left_manifest "GZ") ++ EvMakedirs "data"
             :: EvLog INFO (MsgExtracting "data/warc.paths.gz") :: evs)%list
        /\ forall u, In (EvGet u) evs ->
             exists p, In p ["a/1.warc.gz"; "a/2.warc.gz"]
                       /\ u = (DOWNLOAD_URL ++ p)%string)
  /\ (main serving (args None) (left_manifest "junk")).1 = Raise BadGzipFile.
Proof.
  split; [reflexivity|]. split; [reflexivity|]. split.
  - exact (proj1 (local_manifest_is_reused second_fails (args None)
                    (left_manifest "GZ") "GZ" eq_refl eq_refl)
             [String.append "a/1.warc.gz" (String "010" EmptyString);
              String.append "a/2.warc.gz" (String "010" EmptyString)]
             eq_refl).
  - assert (Hjunk : fs (left_manifest "junk") !! warc_paths_local (args None)
                    = Some "junk") by (vm_compute; reflexivity).
    destruct (proj2 (local_manifest_is_reused serving (args None)
                       (left_manifest "junk") "junk" eq_refl Hjunk) eq_refl)
      as (Hmain & _).
    rewrite Hmain. reflexivity.
Defined.

Lemma max_files_edges_witness :
  max_files (args (Some (-1))) = Some (-1)
  /\ -1 <> 0
  /\ limit_paths (args (Some (-1))) ["a/1.warc.gz"; "a/2.warc.gz"] empty_world
     = (Ret ["a/1.warc.gz"],
        add_events [EvLog INFO (MsgLimited (-1))] empty_world).
Proof.
  split; [reflexivity|]. split; [lia|].
  destruct (max_files_edges (args (Some (-1))) ["a/1.warc.gz"; "a/2.warc.gz"]
              (-1) empty_world eq_refl ltac:(lia))
    as (sel & E & Hseg & Hlen & _).
  rewrite E. f_equal. f_equal.
  rewrite Hseg.
  replace (length sel) with 1%nat
    by (apply Nat2Z.inj; rewrite Hlen; reflexivity).
  reflexivity.
Defined.

Lemma manifest_path_ignores_period_witness :
  download_folder (args None) = Some "data"
  /\ str_truthy "data" = true
  /\ warc_paths_local
       {| year_month := "2024/01"; max_files := None;
          download_folder := Some "data" |}
     = warc_paths_local (args None)
  /\ warc_paths_local (args None) = "data/warc.paths.gz".
Proof.
  split; [reflexivity|]. split; [reflexivity|]. split.
  - exact (proj2 (manifest_path_ignores_period (args None))
             {| year_month := "2024/01"; max_files := None;
                download_folder := Some "data" |} "data"
             eq_refl eq_refl eq_refl).
  - rewrite (proj1 (manifest_path_ignores_period (args None))). reflexivity.
Defined.

Lemma complete_run_forgets_manifest_witness :
  let first := main second_fails (args None) empty_world in
  first = (Ret tt, first.2)
  /\ fs first.2 !! warc_paths_local (args None) = None
  /\ exists evs,
       trace (main second_fails (args None) (later first.2)).2
       = (trace (later first.2) ++ EvMakedirs "data"
            :: EvLog INFO (MsgAttempting manifest_url)
            :: EvGet manifest_url :: evs)%list.
Proof.
  cbv zeta.
  assert (Hrun : main second_fails (args None) empty_world
                 = (Ret tt, (main second_fails (args None) empty_world).2))
    by (vm_compute; reflexivity).
  destruct (complete_run_forgets_manifest second_fails (args None) empty_world
              _ Hrun) as (Hgone & Hnext).
  split; [exact Hrun|]. split; [exact Hgone|].
  exact (Hnext (later (main second_fails (args None) empty_world).2) eq_refl).
Defined.

Lemma request_exactly_when_missing_witness :
  (exists evs,
     trace (download_warc_file serving "data" "a/1.warc.gz" have_first).2
     = (trace have_first ++ evs)%list
     /\ get_count evs = 0%nat)
  /\ (exists evs,
        trace (download_warc_file serving "data" "" empty_world).2
        = (trace empty_world ++ evs)%list
        /\ get_count evs = 0%nat)
  /\ exists evs,
       trace (download_warc_file serving "data" "a/1.warc.gz" empty_world).2
       = (trace empty_world ++ evs)%list
       /\ get_count evs <> 0%nat.
Proof.
  split; [|split].
  - destruct (request_exactly_when_missing serving "data" "a/1.warc.gz"
                have_first) as (evs & T & _ & _ & Hiff).
    exists evs. split; [exact T|].
    apply Hiff. vm_compute. reflexivity.
  - destruct (request_exactly_when_missing serving "data" "" empty_world)
      as (evs & T & _ & _ & Hiff).
    exists evs. split; [exact T|].
    apply Hiff. vm_compute. reflexivity.
  - destruct (request_exactly_when_missing serving "data" "a/1.warc.gz"
                empty_world) as (evs & T & _ & _ & Hiff).
    exists evs. split; [exact T|].
    intros H0. apply Hiff in H0. vm_compute in H0. discriminate.
Defined.

End MoreRuns.

Lemma run_keeps_existing_files_witness :
  "data/1.warc.gz" <> warc_paths_local (Scenario.args None)
  /\ fs Scenario.have_first !! "data/1.warc.gz" = Some "one"
  /\ fs (main Scenario.second_fails (Scenario.args None) Scenario.have_first).2
       !! "data/1.warc.gz" = Some "one".
Proof.
  assert (Hne : "data/1.warc.gz" <> warc_paths_local (Scenario.args None))
    by (vm_compute; discriminate).
  split; [exact Hne|]. split; [reflexivity|].
  apply (run_keeps_existing_files Scenario.second_fails (Scenario.args None)
           Scenario.have_first "data/1.warc.gz" "one" Hne).
  reflexivity.
Defined.
